(** * OpenAI chat-completions instrumentation: the streaming tracer

    A shallow embedding of
    [opentelemetry/instrumentation/openai/patch.py]: the interception
    layer [chat_completions_create.traced_method], the helpers that set
    span attributes and build events, and the two classes
    [ChoiceBuffer] and [StreamWrapper].

    Python objects that the code mutates (the span, the event logger,
    the wrapper and its buffers) are modelled by explicit state passing.
    The span and the event logger are collaborators of the OpenTelemetry
    API; they are modelled as logs of the calls made on them, so that
    "how many times was [end] invoked" is a question about the log.
    An exception is a value returned next to the state reached when it
    was raised.  The model ranges over exceptions derived from
    [Exception]; [StopIteration] is kept apart because [__next__]
    handles it in a clause of its own. *)

From Stdlib Require Import ZArith Lia.
From stdpp Require Import base list strings.

Local Set Warnings "-register-all".

(** ** Python values *)

(** Values that flow through keyword arguments and span attributes.
    A float is carried as its binary64 bit pattern: the code never
    computes with it, it only tests it and passes it on. *)
Inductive PyValue :=
| PyNone
| PyNotGiven
| PyBool (b : bool)
| PyInt (z : Z)
| PyFloat (bits : Z)
| PyStr (s : string)
| PyStrList (l : list string).

(** [bool(v)]; [NotGiven.__bool__] returns [False]. *)
Definition py_bool (v : PyValue) : bool :=
  match v with
  | PyNone => false
  | PyNotGiven => false
  | PyBool b => b
  | PyInt z => negb (z =? 0)%Z
  | PyFloat bits => negb ((bits =? 0)%Z || (bits =? 2 ^ 63)%Z)
  | PyStr s => negb (String.eqb s "")
  | PyStrList l => negb (bool_decide (l = []))
  end.

(** [v is not None] *)
Definition is_not_None (v : PyValue) : bool :=
  match v with PyNone => false | _ => true end.

(** [v != ""] *)
Definition ne_empty_str (v : PyValue) : bool :=
  match v with PyStr s => negb (String.eqb s "") | _ => true end.

(** [v != NOT_GIVEN]: [NotGiven] defines no [__eq__], the comparison is
    identity with the module-level singleton. *)
Definition ne_NOT_GIVEN (v : PyValue) : bool :=
  match v with PyNotGiven => false | _ => true end.

(** [a or b] *)
Definition py_or (a b : PyValue) : PyValue := if py_bool a then a else b.

Definition of_opt_str (o : option string) : PyValue :=
  match o with Some s => PyStr s | None => PyNone end.

(** An exception object: [type(error).__qualname__] and [str(error)]. *)
Record PyError := { qualname : string; message : string }.

Definition IndexError : PyError :=
  {| qualname := "IndexError"; message := "list index out of range" |}.
Definition TypeError (msg : string) : PyError :=
  {| qualname := "TypeError"; message := msg |}.
Definition AttributeError (msg : string) : PyError :=
  {| qualname := "AttributeError"; message := msg |}.

(** [l[i]] index resolution: negative indices count from the end, anything
    outside [-len, len) raises [IndexError] (here [None]). *)
Definition py_index (len : nat) (i : Z) : option nat :=
  if ((0 <=? i) && (i <? Z.of_nat len))%Z then Some (Z.to_nat i)
  else if ((- Z.of_nat len <=? i) && (i <? 0))%Z then Some (Z.to_nat (Z.of_nat len + i))
  else None.

(** ** Collaborators: span and event logger *)

Inductive StatusCode := UNSET | OK | ERROR.

Inductive SpanCall :=
| SetAttribute (name : string) (value : PyValue)
| SetStatus (code : StatusCode) (description : string)
| End.

(** A span is its identity, whether it is recording, and the calls made
    on it so far, oldest first.  [end] stops the recording. *)
Record Span := {
  span_name : string;
  trace_id : Z;
  span_id : Z;
  recording : bool;
  calls : list SpanCall
}.

Definition span_log (c : SpanCall) (sp : Span) : Span :=
  {| span_name := span_name sp; trace_id := trace_id sp; span_id := span_id sp;
     recording := recording sp; calls := calls sp ++ [c] |}.

Definition is_recording (sp : Span) : bool := recording sp.

Definition set_attribute (name : string) (value : PyValue) (sp : Span) : Span :=
  span_log (SetAttribute name value) sp.

Definition set_status (code : StatusCode) (description : string) (sp : Span) : Span :=
  span_log (SetStatus code description) sp.

Definition span_end (sp : Span) : Span :=
  {| span_name := span_name sp; trace_id := trace_id sp; span_id := span_id sp;
     recording := false; calls := calls sp ++ [End] |}.

(** What a tracer decides when a span is started. *)
Record Tracer := { new_trace_id : Z; new_span_id : Z; sampled : bool }.

Definition start_span (tr : Tracer) (name : string) : Span :=
  {| span_name := name; trace_id := new_trace_id tr; span_id := new_span_id tr;
     recording := sampled tr; calls := [] |}.

(** JSON-like bodies ([JsonBody] is a [dict]; keys keep insertion order). *)
Inductive Json :=
| JNull
| JInt (z : Z)
| JStr (s : string)
| JList (l : list Json)
| JObj (fields : list (string * Json)).

Definition JsonBody (fields : list (string * Json)) : Json := JObj fields.

Definition json_opt_str (o : option string) : Json :=
  match o with Some s => JStr s | None => JNull end.

Record Event := {
  ev_name : string;
  ev_body : Json;
  ev_trace_id : option Z;
  ev_span_id : option Z
}.

(** The event logger is the list of what was passed to [emit], oldest
    first; [_message_to_event] can fall off its end and pass [None]. *)
Abbreviation EventLogger := (list (option Event)).

Definition emit (e : option Event) (lg : EventLogger) : EventLogger := lg ++ [e].

(** Attribute names of the semantic conventions. *)
Definition GEN_AI_SYSTEM := "gen_ai.system".
Definition GEN_AI_OPERATION_NAME := "gen_ai.operation.name".
Definition GEN_AI_REQUEST_MODEL := "gen_ai.request.model".
Definition GEN_AI_REQUEST_TEMPERATURE := "gen_ai.request.temperature".
Definition GEN_AI_REQUEST_TOP_P := "gen_ai.request.top_p".
Definition GEN_AI_REQUEST_MAX_TOKENS := "gen_ai.request.max_tokens".
Definition GEN_AI_REQUEST_PRESENCE_PENALTY := "gen_ai.request.presence_penalty".
Definition GEN_AI_REQUEST_FREQUENCY_PENALTY := "gen_ai.request.frequency_penalty".
Definition GEN_AI_RESPONSE_MODEL := "gen_ai.response.model".
Definition GEN_AI_RESPONSE_ID := "gen_ai.response.id".
Definition GEN_AI_USAGE_INPUT_TOKENS := "gen_ai.usage.input_tokens".
Definition GEN_AI_USAGE_OUTPUT_TOKENS := "gen_ai.usage.output_tokens".
Definition GEN_AI_RESPONSE_FINISH_REASONS := "gen_ai.response.finish_reasons".
Definition ERROR_TYPE := "error.type".

(** ** Requests, responses and chunks *)

Record FunctionCall := { fn_name : string; fn_arguments : string }.
Record ToolCall := { tc_id : string; tc_type : string; tc_function : FunctionCall }.

Record Message := {
  msg_role : option string;
  msg_content : option string;
  msg_tool_calls : option (list ToolCall);
  msg_tool_call_id : option string
}.

(** The keyword arguments [traced_method] reads; an absent key is
    [PyNone], as [kwargs.get] gives. *)
Record Kwargs := {
  kw_model : option string;
  kw_temperature : PyValue;
  kw_top_p : PyValue;
  kw_max_tokens : PyValue;
  kw_presence_penalty : PyValue;
  kw_frequency_penalty : PyValue;
  kw_messages : list Message;
  kw_stream : PyValue;
  kw_n : PyValue
}.

Record Usage := { u_prompt_tokens : Z; u_completion_tokens : Z }.

Record ResponseMessage := {
  rm_content : option string;
  rm_tool_calls : option (list ToolCall)
}.

(** A choice of a complete response; [ch_message = None] is a choice
    without a [message] attribute. *)
Record Choice := {
  ch_index : Z;
  ch_finish_reason : option string;
  ch_message : option ResponseMessage
}.

Record ChatCompletion := {
  cmpl_id : option string;
  cmpl_model : option string;
  cmpl_usage : option Usage;
  cmpl_choices : option (list Choice)
}.

Record ChoiceDelta := { delta_content : option string }.

Record ChunkChoice := {
  cc_index : Z;
  cc_finish_reason : option string;
  cc_delta : option ChoiceDelta
}.

Record Chunk := {
  chunk_id : option string;
  chunk_model : option string;
  chunk_usage : option Usage;
  chunk_choices : option (list (option ChunkChoice))
}.

(** One pull on the upstream sequence either produces a chunk or raises.
    A stream is the script of its pulls; once the script is used up the
    sequence is exhausted and every further pull raises [StopIteration]. *)
Inductive Pull := PChunk (c : Chunk) | PRaise (e : PyError).

Inductive RawResult :=
| Completion (r : ChatCompletion)
| Stream (script : list Pull).

Inductive Pulled := Yielded (c : Chunk) | Stopped | Failed (e : PyError).

(** [next(stream)]; a complete response is not an iterator. *)
Definition next_raw (s : RawResult) : Pulled * RawResult :=
  match s with
  | Stream (PChunk c :: rest) => (Yielded c, Stream rest)
  | Stream (PRaise e :: rest) => (Failed e, Stream rest)
  | Stream [] => (Stopped, Stream [])
  | Completion r =>
      (Failed (TypeError "'ChatCompletion' object is not an iterator"), Completion r)
  end.

(** ** Module-level helpers *)

(** [_record_error]: always raises [error]; the span it returns is the
    one the caller sees when the exception arrives. *)
Definition _record_error (error : PyError) (span : Span) : Span * PyError :=
  let span := set_attribute ERROR_TYPE (PyStr (qualname error)) span in
  let span := set_status ERROR (message error) span in
  let span := span_end span in
  (span, error).

Definition _set_span_attribute (span : Span) (name : string) (value : PyValue) : Span :=
  if is_not_None value && (ne_empty_str value || ne_NOT_GIVEN value)
  then set_attribute name value span
  else span.

Definition _set_response_attributes (span : Span)
    (response_model response_id usage_input_tokens usage_output_tokens : PyValue) : Span :=
  if negb (is_recording span) then span
  else
    let span := _set_span_attribute span GEN_AI_RESPONSE_MODEL response_model in
    let span := _set_span_attribute span GEN_AI_RESPONSE_ID response_id in
    let span := _set_span_attribute span GEN_AI_USAGE_INPUT_TOKENS usage_input_tokens in
    _set_span_attribute span GEN_AI_USAGE_OUTPUT_TOKENS usage_output_tokens.

Definition _is_streaming (kwargs : Kwargs) : bool :=
  let stream := kw_stream kwargs in
  py_bool stream && ne_NOT_GIVEN stream.

Definition tool_call_json (tc : ToolCall) : Json :=
  JObj [("id", JStr (tc_id tc));
        ("type", JStr (tc_type tc));
        ("function", JObj [("name", JStr (fn_name (tc_function tc)));
                           ("arguments", JStr (fn_arguments (tc_function tc)))])].

Definition _choice_to_message (choice : Choice) : Json :=
  match ch_message choice with
  | None => JObj []
  | Some m =>
      let message := [] in
      let message :=
        match rm_content m with
        | Some c => message ++ [("content", JStr c)]
        | None => message
        end in
      let message :=
        match rm_tool_calls m with
        | Some tcs => message ++ [("tool_calls", JList (map tool_call_json tcs))]
        | None => message
        end in
      JObj message
  end.

Definition mk_event (name : string) (body : Json) : Event :=
  {| ev_name := name; ev_body := body; ev_trace_id := None; ev_span_id := None |}.

Definition _message_to_event (message : Message) : option Event :=
  let role := msg_role message in
  let content := msg_content message in
  if bool_decide (role = Some "user") then
    Some (mk_event "gen_ai.user.message" (JsonBody [("content", json_opt_str content)]))
  else if bool_decide (role = Some "system") then
    Some (mk_event "gen_ai.system.message" (JsonBody [("content", json_opt_str content)]))
  else if bool_decide (role = Some "assistant") then
    match msg_tool_calls message with
    | None | Some [] =>
        Some (mk_event "gen_ai.assistant.message" (JsonBody [("content", json_opt_str content)]))
    | Some tool_calls =>
        let body := [("tool_calls", JList (map tool_call_json tool_calls))] in
        let body :=
          match content with
          | Some c => if negb (String.eqb c "") then body ++ [("content", JStr c)] else body
          | None => body
          end in
        Some (mk_event "gen_ai.assistant.message" (JsonBody body))
    end
  else if bool_decide (role = Some "tool") then
    Some (mk_event "gen_ai.tool.message"
            (JsonBody [("content", json_opt_str content);
                       ("id", json_opt_str (msg_tool_call_id message))]))
  else None.

(** [choice.finish_reason or "error"] *)
Definition or_error (finish_reason : option string) : string :=
  match finish_reason with
  | Some s => if String.eqb s "" then "error" else s
  | None => "error"
  end.

(** ** ChoiceBuffer *)

Module ChoiceBuffer.

Record t := {
  index : Z;
  finish_reason : option string;
  content_str : string;
  role : option string
}.

Definition __init__ (index : Z) : t :=
  {| index := index; finish_reason := None; content_str := ""; role := None |}.

Definition append (self : t) (choice : ChunkChoice) : t :=
  let finish_reason :=
    match cc_finish_reason choice with
    | Some r => Some r
    | None => finish_reason self
    end in
  let content_str :=
    match cc_delta choice with
    | Some d =>
        match delta_content d with
        | Some s => content_str self +:+ s
        | None => content_str self
        end
    | None => content_str self
    end in
  {| index := index self; finish_reason := finish_reason;
     content_str := content_str; role := role self |}.

End ChoiceBuffer.

(** ** StreamWrapper *)

Module StreamWrapper.

Record t := {
  stream : RawResult;
  span : Span;
  choices : list ChoiceBuffer.t;
  response_model : option string;
  response_id : option string;
  num_choices : Z;
  event_logger : EventLogger;
  prompt_tokens : Z;
  completion_tokens : Z;
  _span_started : bool
}.

Definition set_stream (v : RawResult) (w : t) : t :=
  {| stream := v; span := span w; choices := choices w;
     response_model := response_model w; response_id := response_id w;
     num_choices := num_choices w; event_logger := event_logger w;
     prompt_tokens := prompt_tokens w; completion_tokens := completion_tokens w;
     _span_started := _span_started w |}.

Definition set_span (v : Span) (w : t) : t :=
  {| stream := stream w; span := v; choices := choices w;
     response_model := response_model w; response_id := response_id w;
     num_choices := num_choices w; event_logger := event_logger w;
     prompt_tokens := prompt_tokens w; completion_tokens := completion_tokens w;
     _span_started := _span_started w |}.

Definition set_choices (v : list ChoiceBuffer.t) (w : t) : t :=
  {| stream := stream w; span := span w; choices := v;
     response_model := response_model w; response_id := response_id w;
     num_choices := num_choices w; event_logger := event_logger w;
     prompt_tokens := prompt_tokens w; completion_tokens := completion_tokens w;
     _span_started := _span_started w |}.

Definition set_response_model (v : option string) (w : t) : t :=
  {| stream := stream w; span := span w; choices := choices w;
     response_model := v; response_id := response_id w;
     num_choices := num_choices w; event_logger := event_logger w;
     prompt_tokens := prompt_tokens w; completion_tokens := completion_tokens w;
     _span_started := _span_started w |}.

Definition set_response_id (v : option string) (w : t) : t :=
  {| stream := stream w; span := span w; choices := choices w;
     response_model := response_model w; response_id := v;
     num_choices := num_choices w; event_logger := event_logger w;
     prompt_tokens := prompt_tokens w; completion_tokens := completion_tokens w;
     _span_started := _span_started w |}.

Definition set_event_logger (v : EventLogger) (w : t) : t :=
  {| stream := stream w; span := span w; choices := choices w;
     response_model := response_model w; response_id := response_id w;
     num_choices := num_choices w; event_logger := v;
     prompt_tokens := prompt_tokens w; completion_tokens := completion_tokens w;
     _span_started := _span_started w |}.

Definition set_prompt_tokens (v : Z) (w : t) : t :=
  {| stream := stream w; span := span w; choices := choices w;
     response_model := response_model w; response_id := response_id w;
     num_choices := num_choices w; event_logger := event_logger w;
     prompt_tokens := v; completion_tokens := completion_tokens w;
     _span_started := _span_started w |}.

Definition set_completion_tokens (v : Z) (w : t) : t :=
  {| stream := stream w; span := span w; choices := choices w;
     response_model := response_model w; response_id := response_id w;
     num_choices := num_choices w; event_logger := event_logger w;
     prompt_tokens := prompt_tokens w; completion_tokens := v;
     _span_started := _span_started w |}.

Definition set_span_started (v : bool) (w : t) : t :=
  {| stream := stream w; span := span w; choices := choices w;
     response_model := response_model w; response_id := response_id w;
     num_choices := num_choices w; event_logger := event_logger w;
     prompt_tokens := prompt_tokens w; completion_tokens := completion_tokens w;
     _span_started := v |}.

Definition setup (self : t) : t :=
  if negb (_span_started self) then set_span_started true self else self.

(** [num_choices] is already an integer here; [[None] * n] and
    [range(n)] are empty for [n <= 0]. *)
Definition __init__ (stream : RawResult) (num_choices : Z) (span : Span)
    (event_logger : EventLogger) : t :=
  setup
    {| stream := stream; span := span;
       choices := map (fun i => ChoiceBuffer.__init__ (Z.of_nat i))
                      (seq 0 (Z.to_nat num_choices));
       response_model := None; response_id := None;
       num_choices := num_choices; event_logger := event_logger;
       prompt_tokens := 0; completion_tokens := 0;
       _span_started := false |}.

Definition choice_event (span : Span) (choice : ChoiceBuffer.t) : Event :=
  {| ev_name := "gen_ai.choice";
     ev_body := JsonBody
       [("index", JInt (ChoiceBuffer.index choice));
        ("finish_reason", json_opt_str (ChoiceBuffer.finish_reason choice));
        ("message", JObj [("content", JStr (ChoiceBuffer.content_str choice))])];
     ev_trace_id := Some (trace_id span);
     ev_span_id := Some (span_id span) |}.

(** The [for choice in self.choices] loop of [cleanup]. *)
Fixpoint cleanup_loop (span : Span) (choices : list ChoiceBuffer.t)
    (finish_reasons : list string) (lg : EventLogger) : list string * EventLogger :=
  match choices with
  | [] => (finish_reasons, lg)
  | choice :: rest =>
      cleanup_loop span rest
        (finish_reasons ++ [or_error (ChoiceBuffer.finish_reason choice)])
        (emit (Some (choice_event span choice)) lg)
  end.

(** [cleanup]: the second component is the exception that leaves the
    method, if any.  When [_record_error] raises, the two statements after
    it are not run. *)
Definition cleanup (self : t) (exc_val : option PyError) : t * option PyError :=
  if _span_started self then
    let sp := _set_response_attributes (span self)
                (of_opt_str (response_model self)) (of_opt_str (response_id self))
                (PyInt (prompt_tokens self)) (PyInt (completion_tokens self)) in
    let '(finish_reasons, lg) := cleanup_loop sp (choices self) [] (event_logger self) in
    let sp := _set_span_attribute sp GEN_AI_RESPONSE_FINISH_REASONS (PyStrList finish_reasons) in
    match exc_val with
    | Some e =>
        let '(sp, raised) := _record_error e sp in
        (set_event_logger lg (set_span sp self), Some raised)
    | None =>
        let sp := span_end sp in
        (set_span_started false (set_event_logger lg (set_span sp self)), None)
    end
  else (self, None).

Definition __enter__ (self : t) : t := setup self.

Definition __exit__ (self : t) (exc_val : option PyError) : t * option PyError :=
  cleanup self exc_val.

(** The [for choice in chunk.choices] loop of [process_chunk]; an index
    out of range raises and leaves the buffers as they are by then. *)
Fixpoint append_loop (bufs : list ChoiceBuffer.t) (cs : list (option ChunkChoice))
    : list ChoiceBuffer.t * option PyError :=
  match cs with
  | [] => (bufs, None)
  | None :: rest => append_loop bufs rest
  | Some choice :: rest =>
      match py_index (length bufs) (cc_index choice) with
      | Some i =>
          append_loop (alter (fun b => ChoiceBuffer.append b choice) i bufs) rest
      | None => (bufs, Some IndexError)
      end
  end.

Definition process_chunk (self : t) (chunk : Chunk) : t * option PyError :=
  let self :=
    match response_id self with
    | None => set_response_id (chunk_id chunk) self
    | Some _ => self
    end in
  let self :=
    match response_model self with
    | None => set_response_model (chunk_model chunk) self
    | Some _ => self
    end in
  let self :=
    match chunk_usage chunk with
    | Some usage =>
        set_prompt_tokens (u_prompt_tokens usage)
          (set_completion_tokens (u_completion_tokens usage) self)
    | None => self
    end in
  match chunk_choices chunk with
  | Some cs =>
      let '(bufs, raised) := append_loop (choices self) cs in
      (set_choices bufs self, raised)
  | None => (self, None)
  end.

Inductive NextResult :=
| Return (chunk : Chunk)
| RaiseStopIteration
| Raise (e : PyError).

(** The [except Exception as e] clause of [__next__]. *)
Definition except_Exception (self : t) (e : PyError) : t * NextResult :=
  let '(self, raised) := cleanup self (Some e) in
  (self, Raise (match raised with Some e' => e' | None => e end)).

Definition __next__ (self : t) : t * NextResult :=
  let '(pulled, s) := next_raw (stream self) in
  let self := set_stream s self in
  match pulled with
  | Yielded chunk =>
      match process_chunk self chunk with
      | (self, None) => (self, Return chunk)
      | (self, Some e) => except_Exception self e
      end
  | Stopped =>
      let '(self, raised) := cleanup self None in
      (self, match raised with Some e => Raise e | None => RaiseStopIteration end)
  | Failed e => except_Exception self e
  end.

End StreamWrapper.

(** ** The interception layer *)

Inductive CallResult := Returns (r : RawResult) | Raises (e : PyError).

Inductive Returned :=
| ReturnRaw (r : RawResult)
| ReturnWrapper (w : StreamWrapper.t)
| Raised (e : PyError).

(** What a call of [traced_method] leaves behind: the span, the event
    logger and what the caller gets.  When a wrapper is returned it
    holds the same span and logger, which from then on only it touches. *)
Record Outcome := {
  out_span : Span;
  out_events : EventLogger;
  out_result : Returned
}.

(** [type(v).__name__] *)
Definition py_type_name (v : PyValue) : string :=
  match v with
  | PyNone => "NoneType"
  | PyNotGiven => "NotGiven"
  | PyBool _ => "bool"
  | PyInt _ => "int"
  | PyFloat _ => "float"
  | PyStr _ => "str"
  | PyStrList _ => "list"
  end.

(** [[None] * v] in [StreamWrapper.__init__] needs an integer ([bool]
    is one); anything else raises there, inside the [try] of
    [traced_method]. *)
Definition as_count (v : PyValue) : PyError + Z :=
  match v with
  | PyInt z => inr z
  | PyBool b => inr (if b then 1 else 0)%Z
  | _ => inl (TypeError ("can't multiply sequence by non-int of type '"
                         +:+ py_type_name v +:+ "'"))
  end.

(** The [for choice in result.choices] loop of the non-streaming branch. *)
Fixpoint response_loop (choices : list Choice) (finish_reasons : list string)
    (lg : EventLogger) : list string * EventLogger :=
  match choices with
  | [] => (finish_reasons, lg)
  | choice :: rest =>
      let choice_content := JsonBody
        [("index", JInt (ch_index choice));
         ("finish_reason", json_opt_str (ch_finish_reason choice));
         ("message", _choice_to_message choice)] in
      response_loop rest
        (finish_reasons ++ [or_error (ch_finish_reason choice)])
        (emit (Some (mk_event "gen_ai.choice" choice_content)) lg)
  end.

Definition usage_field (f : Usage -> Z) (u : option Usage) : PyValue :=
  match u with Some u => PyInt (f u) | None => PyNone end.

(** The [except Exception as error] clause of [traced_method]:
    [_record_error] raises, so the [span.end()] and [raise] after it are
    not reached.  The tracer's context manager, through which the
    exception then leaves, records an exception only on a span that is
    still recording, which this one no longer is. *)
Definition traced_except (span : Span) (lg : EventLogger) (error : PyError) : Outcome :=
  let '(span, raised) := _record_error error span in
  {| out_span := span; out_events := lg; out_result := Raised raised |}.

Definition traced_method (tracer : Tracer) (event_logger : EventLogger)
    (wrapped : Kwargs -> CallResult) (kwargs : Kwargs) : Outcome :=
  let operation_name := "chat" in
  let request_model := kw_model kwargs in
  let span_name :=
    operation_name +:+ " " +:+ default "None" request_model in
  let span := start_span tracer span_name in
  let '(span, lg) :=
    if is_recording span then
      let span := set_attribute GEN_AI_SYSTEM (PyStr "openai") span in
      let span := set_attribute GEN_AI_OPERATION_NAME (PyStr operation_name) span in
      let span := set_attribute GEN_AI_REQUEST_MODEL (of_opt_str request_model) span in
      let span := _set_span_attribute span GEN_AI_REQUEST_TEMPERATURE (kw_temperature kwargs) in
      let span := _set_span_attribute span GEN_AI_REQUEST_TOP_P (kw_top_p kwargs) in
      let span := _set_span_attribute span GEN_AI_REQUEST_MAX_TOKENS (kw_max_tokens kwargs) in
      let span := _set_span_attribute span GEN_AI_REQUEST_PRESENCE_PENALTY
                    (kw_presence_penalty kwargs) in
      let span := _set_span_attribute span GEN_AI_REQUEST_FREQUENCY_PENALTY
                    (kw_frequency_penalty kwargs) in
      (span, fold_left (fun lg msg => emit (_message_to_event msg) lg)
                       (kw_messages kwargs) event_logger)
    else (span, event_logger) in
  match wrapped kwargs with
  | Raises error => traced_except span lg error
  | Returns result =>
      if negb (is_recording span) then
        {| out_span := span; out_events := lg; out_result := ReturnRaw result |}
      else if _is_streaming kwargs then
        match as_count (py_or (kw_n kwargs) (PyInt 1)) with
        | inr n =>
            {| out_span := span; out_events := lg;
               out_result := ReturnWrapper (StreamWrapper.__init__ result n span lg) |}
        | inl error => traced_except span lg error
        end
      else
        match result with
        | Stream _ =>
            traced_except span lg
              (AttributeError "'Stream' object has no attribute 'model'")
        | Completion r =>
            let span := _set_response_attributes span
                          (of_opt_str (cmpl_model r)) (of_opt_str (cmpl_id r))
                          (usage_field u_prompt_tokens (cmpl_usage r))
                          (usage_field u_completion_tokens (cmpl_usage r)) in
            let '(finish_reasons, lg) :=
              match cmpl_choices r with
              | Some choices => response_loop choices [] lg
              | None => ([], lg)
              end in
            let span := set_attribute GEN_AI_RESPONSE_FINISH_REASONS
                          (PyStrList finish_reasons) span in
            let span := span_end span in
            {| out_span := span; out_events := lg; out_result := ReturnRaw result |}
        end
  end.

(** ** Callers *)

(** What a caller can do with a wrapper it holds. *)
Inductive Op :=
| OpNext
| OpEnter
| OpExit (exc_val : option PyError).

Definition step (w : StreamWrapper.t) (op : Op) : StreamWrapper.t :=
  match op with
  | OpNext => fst (StreamWrapper.__next__ w)
  | OpEnter => StreamWrapper.__enter__ w
  | OpExit exc_val => fst (StreamWrapper.__exit__ w exc_val)
  end.

Definition run (w : StreamWrapper.t) (ops : list Op) : StreamWrapper.t :=
  fold_left step ops w.

(** [for chunk in wrapper: seen.append(chunk)]: the chunks the caller
    sees and how the loop ends ([None]: exhaustion, [Some e]: [e]
    propagates).  Every round pulls once on the upstream script, so the
    loop needs at most one round more than the script is long. *)
Fixpoint iterate (fuel : nat) (w : StreamWrapper.t) (seen : list Chunk)
    : option (StreamWrapper.t * list Chunk * option PyError) :=
  match fuel with
  | O => None
  | S fuel =>
      match StreamWrapper.__next__ w with
      | (w, StreamWrapper.Return chunk) => iterate fuel w (seen ++ [chunk])
      | (w, StreamWrapper.RaiseStopIteration) => Some (w, seen, None)
      | (w, StreamWrapper.Raise e) => Some (w, seen, Some e)
      end
  end.

(** The state after [process_chunk] has been applied to each chunk in turn. *)
Definition feed (w : StreamWrapper.t) (cs : list Chunk) : StreamWrapper.t :=
  fold_left (fun w c => fst (StreamWrapper.process_chunk w c)) cs w.

Definition is_End (c : SpanCall) : bool :=
  match c with End => true | _ => false end.

Definition end_count (sp : Span) : nat := length (List.filter is_End (calls sp)).

Definition is_choice_event (e : option Event) : bool :=
  match e with
  | Some ev => String.eqb (ev_name ev) "gen_ai.choice"
  | None => false
  end.

Definition choice_event_count (lg : EventLogger) : nat :=
  length (List.filter is_choice_event lg).

(** [body[key]] of a JSON object. *)
Fixpoint assoc (key : string) (fields : list (string * Json)) : option Json :=
  match fields with
  | [] => None
  | (k, v) :: rest => if String.eqb k key then Some v else assoc key rest
  end.

Definition json_field (key : string) (body : Json) : option Json :=
  match body with JObj fields => assoc key fields | _ => None end.

(** ** The words of the specification *)

(** The first non-null value of a sequence of optional values. *)
Fixpoint first_some {A} (l : list (option A)) : option A :=
  match l with
  | [] => None
  | Some x :: _ => Some x
  | None :: rest => first_some rest
  end.

(** The last non-null value of a sequence, or [d] when there is none. *)
Definition last_some {A} (d : A) (l : list (option A)) : A :=
  fold_left (fun acc o => match o with Some x => x | None => acc end) l d.

(** The per-choice deltas a chunk carries, in order. *)
Definition chunk_deltas (c : Chunk) : list ChunkChoice :=
  match chunk_choices c with
  | Some l => omap id l
  | None => []
  end.

(** The deltas for choice index [i] in a sequence of chunks, in arrival order. *)
Definition deltas_for (i : Z) (cs : list Chunk) : list ChunkChoice :=
  List.filter (fun d => (cc_index d =? i)%Z) (flat_map chunk_deltas cs).

(** The text a delta carries ([""] when it carries none). *)
Definition delta_text (d : ChunkChoice) : string :=
  match cc_delta d with
  | Some dl => default "" (delta_content dl)
  | None => ""
  end.

Definition concat_text (ds : list ChunkChoice) : string :=
  fold_right (fun d acc => delta_text d +:+ acc) "" ds.

(** A chunk is well formed for [n] choices when each delta's index is
    one of [0 .. n-1]. *)
Definition delta_ok (n : nat) (d : ChunkChoice) : Prop :=
  (0 <= cc_index d < Z.of_nat n)%Z.

Definition well_formed (n : nat) (c : Chunk) : Prop :=
  Forall (delta_ok n) (chunk_deltas c).

(** ** Sample data *)

Module Sample.

Definition tracer_on : Tracer :=
  {| new_trace_id := 7; new_span_id := 11; sampled := true |}.
Definition tracer_off : Tracer :=
  {| new_trace_id := 7; new_span_id := 11; sampled := false |}.

Definition kwargs (stream temperature n : PyValue) : Kwargs :=
  {| kw_model := Some "gpt-4o"; kw_temperature := temperature; kw_top_p := PyNone;
     kw_max_tokens := PyNone; kw_presence_penalty := PyNone;
     kw_frequency_penalty := PyNone;
     kw_messages := [{| msg_role := Some "user"; msg_content := Some "hi";
                        msg_tool_calls := None; msg_tool_call_id := None |}];
     kw_stream := stream; kw_n := n |}.

Definition boom : PyError :=
  {| qualname := "APIConnectionError"; message := "Connection error." |}.

Definition delta (i : Z) (text : option string) (reason : option string) : option ChunkChoice :=
  Some {| cc_index := i; cc_finish_reason := reason;
          cc_delta := Some {| delta_content := text |} |}.

Definition chunk (id : option string) (usage : option Usage)
    (ds : list (option ChunkChoice)) : Chunk :=
  {| chunk_id := id; chunk_model := Some "gpt-4o-2024"; chunk_usage := usage;
     chunk_choices := Some ds |}.

(** A wrapper as [traced_method] builds it for a streaming call. *)
Definition wrapper (script : list Pull) (n : Z) : StreamWrapper.t :=
  StreamWrapper.__init__ (Stream script) n (start_span tracer_on "chat gpt-4o") [].

(** A complete response with one choice. *)
Definition completion : ChatCompletion :=
  {| cmpl_id := Some "chatcmpl-1"; cmpl_model := Some "gpt-4o-2024";
     cmpl_usage := Some {| u_prompt_tokens := 12; u_completion_tokens := 3 |};
     cmpl_choices :=
       Some [{| ch_index := 0; ch_finish_reason := Some "stop";
                ch_message := Some {| rm_content := Some "hello";
                                      rm_tool_calls := None |} |}] |}.

Definition tool_call : ToolCall :=
  {| tc_id := "call_1"; tc_type := "function";
     tc_function := {| fn_name := "lookup"; fn_arguments := "{}" |} |}.

End Sample.

(** The call [_set_span_attribute] adds to the log for [name] and [v]. *)
Definition attr_call (name : string) (v : PyValue) : list SpanCall :=
  if is_not_None v then [SetAttribute name v] else [].

(** The calls [_set_response_attributes] adds to the log of a recording span. *)
Definition response_calls (response_model response_id tokens_in tokens_out : PyValue)
    : list SpanCall :=
  attr_call GEN_AI_RESPONSE_MODEL response_model
  ++ attr_call GEN_AI_RESPONSE_ID response_id
  ++ attr_call GEN_AI_USAGE_INPUT_TOKENS tokens_in
  ++ attr_call GEN_AI_USAGE_OUTPUT_TOKENS tokens_out.

(** The three calls of [_record_error]. *)
Definition error_calls (e : PyError) : list SpanCall :=
  [SetAttribute ERROR_TYPE (PyStr (qualname e)); SetStatus ERROR (message e); End].

(** The ordered finish reasons [cleanup] collects. *)
Definition finish_reasons_of (bufs : list ChoiceBuffer.t) : list string :=
  map (fun b => or_error (ChoiceBuffer.finish_reason b)) bufs.

(** The events [cleanup] emits, one per buffer in order. *)
Definition choice_events (sp : Span) (bufs : list ChoiceBuffer.t) : EventLogger :=
  map (fun b => Some (StreamWrapper.choice_event sp b)) bufs.

(** The calls one effective [cleanup] adds to the span's log. *)
Definition finalize_calls (w : StreamWrapper.t) (exc_val : option PyError)
    : list SpanCall :=
  (if is_recording (StreamWrapper.span w)
   then response_calls (of_opt_str (StreamWrapper.response_model w))
                       (of_opt_str (StreamWrapper.response_id w))
                       (PyInt (StreamWrapper.prompt_tokens w))
                       (PyInt (StreamWrapper.completion_tokens w))
   else [])
  ++ [SetAttribute GEN_AI_RESPONSE_FINISH_REASONS
        (PyStrList (finish_reasons_of (StreamWrapper.choices w)))]
  ++ match exc_val with
     | Some e => error_calls e
     | None => [End]
     end.

(** The words of the specification on events: the event at position [k] of the
    logger carries ["error"] as its finish reason. *)
Definition event_reports_error (lg : EventLogger) (k : nat) : Prop :=
  exists ev, lg !! k = Some (Some ev)
             /\ json_field "finish_reason" (ev_body ev) = Some (JStr "error").

(** A pull that carries no usage data. *)
Definition no_usage (p : Pull) : Prop :=
  match p with
  | PChunk c => chunk_usage c = None
  | PRaise _ => True
  end.

(** The calls the request block of [traced_method] makes on a recording span. *)
Definition request_calls (kwargs : Kwargs) : list SpanCall :=
  [SetAttribute GEN_AI_SYSTEM (PyStr "openai");
   SetAttribute GEN_AI_OPERATION_NAME (PyStr "chat");
   SetAttribute GEN_AI_REQUEST_MODEL (of_opt_str (kw_model kwargs))]
  ++ attr_call GEN_AI_REQUEST_TEMPERATURE (kw_temperature kwargs)
  ++ attr_call GEN_AI_REQUEST_TOP_P (kw_top_p kwargs)
  ++ attr_call GEN_AI_REQUEST_MAX_TOKENS (kw_max_tokens kwargs)
  ++ attr_call GEN_AI_REQUEST_PRESENCE_PENALTY (kw_presence_penalty kwargs)
  ++ attr_call GEN_AI_REQUEST_FREQUENCY_PENALTY (kw_frequency_penalty kwargs).

(** What is passed to [emit] for the input messages, in message order. *)
Definition message_events (kwargs : Kwargs) : EventLogger :=
  map _message_to_event (kw_messages kwargs).

(** The choices of a complete response ([None] counts as no choice). *)
Definition response_choices (r : ChatCompletion) : list Choice :=
  default [] (cmpl_choices r).

(** The event the non-streaming branch emits for one choice. *)
Definition response_choice_event (choice : Choice) : Event :=
  mk_event "gen_ai.choice"
    (JsonBody [("index", JInt (ch_index choice));
               ("finish_reason", json_opt_str (ch_finish_reason choice));
               ("message", _choice_to_message choice)]).

(** The last non-null finish reason a sequence of deltas carries. *)
Definition last_reason (ds : list ChunkChoice) : option string :=
  last_some None (map (fun d => Some <$> cc_finish_reason d) ds).

(** A delta whose index Python's list indexing rejects for [n] buffers. *)
Definition out_of_range (n : nat) (d : ChunkChoice) : Prop :=
  py_index n (cc_index d) = None.

(** The attribute names a log sets. *)
Definition attribute_names (l : list SpanCall) : list string :=
  omap (fun c => match c with SetAttribute name _ => Some name | _ => None end) l.

(** A delta that leaves the finish reason of the buffer at position [i]
    alone: list indexing does not send it there, or it carries none. *)
Definition quiet_for (n i : nat) (d : ChunkChoice) : Prop :=
  py_index n (cc_index d) = Some i -> cc_finish_reason d = None.

(** A pull that leaves the finish reason of choice [i] alone. *)
Definition chunk_quiet_for (n i : nat) (p : Pull) : Prop :=
  match p with
  | PChunk c => Forall (quiet_for n i) (chunk_deltas c)
  | PRaise _ => True
  end.

(** The buffer at position [i] has index [i] and no finish reason. *)
Definition unset_at (i : nat) (bufs : list ChoiceBuffer.t) : Prop :=
  exists b, bufs !! i = Some b
            /\ ChoiceBuffer.index b = Z.of_nat i
            /\ ChoiceBuffer.finish_reason b = None.

(** Where a wrapper stands on the upstream [script]: it has pulled
    [consumed], [rest] is still to come, it has [n] buffers, and if what
    it pulled left the finish reason of choice [i] alone, buffer [i] has
    none. *)
Definition reading (script : list Pull) (n i : nat) (w : StreamWrapper.t) : Prop :=
  length (StreamWrapper.choices w) = n
  /\ exists consumed rest,
       script = consumed ++ rest
       /\ StreamWrapper.stream w = Stream rest
       /\ (Forall (chunk_quiet_for n i) consumed ->
           unset_at i (StreamWrapper.choices w)).

(** Opens [process_chunk] on a wrapper given by its fields and splits on
    every test the method makes; [H] is a fact about the loop over the
    choices, kept in view while the loop's result is named. *)
Ltac open_process_chunk w c H :=
  destruct w as [s sp bufs rm ri n lg pt ct st];
  unfold StreamWrapper.process_chunk; cbn;
  destruct ri, rm, (chunk_usage c), (chunk_choices c) as [cs |]; cbn;
  try (pose proof (H cs bufs);
       destruct (StreamWrapper.append_loop bufs cs); cbn in * ).

(** * Properties *)

(** ** Setting attributes *)

Section Attributes.

Variables (span : Span) (name : string).

(** The sentinel test of [_set_span_attribute] never decides anything:
    a value cannot be equal to [""] and to [NOT_GIVEN] at once, so the
    disjunction holds and only the [None] test is left. *)
Lemma sentinel_test_always_true (v : PyValue) :
  ne_empty_str v || ne_NOT_GIVEN v = true.
Proof. destruct v; simpl; try reflexivity. now rewrite orb_true_r. Qed.

Lemma _set_span_attribute_spec (v : PyValue) :
  _set_span_attribute span name v =
  if is_not_None v then set_attribute name v span else span.
Proof.
  unfold _set_span_attribute.
  now rewrite sentinel_test_always_true, andb_true_r.
Qed.

Lemma _set_span_attribute_calls (v : PyValue) :
  calls (_set_span_attribute span name v) = calls span ++ attr_call name v.
Proof.
  rewrite _set_span_attribute_spec. unfold attr_call.
  destruct (is_not_None v); simpl; [reflexivity | now rewrite app_nil_r].
Qed.

Lemma _set_span_attribute_ids (v : PyValue) :
  trace_id (_set_span_attribute span name v) = trace_id span
  /\ span_id (_set_span_attribute span name v) = span_id span
  /\ recording (_set_span_attribute span name v) = recording span.
Proof.
  rewrite _set_span_attribute_spec. destruct (is_not_None v); simpl; auto.
Qed.

End Attributes.

Lemma _set_response_attributes_calls (sp : Span) (m i p c : PyValue) :
  calls (_set_response_attributes sp m i p c) =
  calls sp ++ (if is_recording sp then response_calls m i p c else []).
Proof.
  unfold _set_response_attributes, response_calls.
  destruct (is_recording sp); simpl; [| now rewrite app_nil_r].
  rewrite !_set_span_attribute_calls. now rewrite <- !app_assoc.
Qed.

Lemma _set_response_attributes_ids (sp : Span) (m i p c : PyValue) :
  trace_id (_set_response_attributes sp m i p c) = trace_id sp
  /\ span_id (_set_response_attributes sp m i p c) = span_id sp.
Proof.
  unfold _set_response_attributes.
  destruct (is_recording sp); simpl; [| auto].
  repeat match goal with
         | |- context [_set_span_attribute ?s ?n ?v] =>
             destruct (_set_span_attribute_ids s n v) as (-> & -> & _)
         end.
  auto.
Qed.

Lemma _record_error_calls (e : PyError) (sp : Span) :
  calls (fst (_record_error e sp)) = calls sp ++ error_calls e
  /\ snd (_record_error e sp) = e.
Proof. unfold _record_error, error_calls. simpl. now rewrite <- !app_assoc. Qed.

(** [C3] That a request attribute whose value is the sentinel is not
    attached does not hold of the code.  [_set_span_attribute]
    attaches [NOT_GIVEN] like any other value that is not [None], and a
    traced call on a recording span with [temperature], [top_p],
    [max_tokens], [presence_penalty] or [frequency_penalty] equal to
    [NOT_GIVEN] ends up with all five attributes set to the sentinel. *)
Theorem sentinel_value_is_attached :
  (forall span name,
      calls (_set_span_attribute span name PyNotGiven)
      = calls span ++ [SetAttribute name PyNotGiven])
  /\ (forall tid sid lg wrapped model messages stream n,
         let tracer := {| new_trace_id := tid; new_span_id := sid; sampled := true |} in
         let kwargs :=
           {| kw_model := model; kw_temperature := PyNotGiven;
              kw_top_p := PyNotGiven; kw_max_tokens := PyNotGiven;
              kw_presence_penalty := PyNotGiven;
              kw_frequency_penalty := PyNotGiven;
              kw_messages := messages; kw_stream := stream; kw_n := n |} in
         exists rest,
           calls (out_span (traced_method tracer lg wrapped kwargs))
           = [SetAttribute GEN_AI_SYSTEM (PyStr "openai");
              SetAttribute GEN_AI_OPERATION_NAME (PyStr "chat");
              SetAttribute GEN_AI_REQUEST_MODEL (of_opt_str model);
              SetAttribute GEN_AI_REQUEST_TEMPERATURE PyNotGiven;
              SetAttribute GEN_AI_REQUEST_TOP_P PyNotGiven;
              SetAttribute GEN_AI_REQUEST_MAX_TOKENS PyNotGiven;
              SetAttribute GEN_AI_REQUEST_PRESENCE_PENALTY PyNotGiven;
              SetAttribute GEN_AI_REQUEST_FREQUENCY_PENALTY PyNotGiven] ++ rest).
Proof.
  split.
  - intros span name. now rewrite _set_span_attribute_calls.
  - intros tid sid lg wrapped model messages stream n tracer kwargs.
    unfold traced_method, is_recording, start_span. simpl.
    destruct (wrapped kwargs) as [result | error]; simpl.
    + destruct (_is_streaming kwargs).
      * destruct (as_count _); simpl; eauto.
      * destruct result as [r | s]; simpl.
        -- destruct (cmpl_choices r) as [chs |];
             [destruct (response_loop chs [] _) |]; simpl;
             rewrite _set_response_attributes_calls; simpl;
             rewrite <- !app_assoc; simpl; eauto.
        -- eauto.
    + eauto.
Qed.

(** ** What [process_chunk] changes and what it leaves alone *)

Lemma append_loop_length (cs : list (option ChunkChoice)) :
  forall bufs, length (fst (StreamWrapper.append_loop bufs cs)) = length bufs.
Proof.
  induction cs as [| [d |] cs IH]; intros bufs; simpl; auto.
  destruct (py_index (length bufs) (cc_index d)); simpl; auto.
  now rewrite IH, length_alter.
Qed.

Lemma process_chunk_frame (w : StreamWrapper.t) (c : Chunk) :
  let w' := fst (StreamWrapper.process_chunk w c) in
  StreamWrapper.stream w' = StreamWrapper.stream w
  /\ StreamWrapper.span w' = StreamWrapper.span w
  /\ StreamWrapper.event_logger w' = StreamWrapper.event_logger w
  /\ StreamWrapper._span_started w' = StreamWrapper._span_started w
  /\ StreamWrapper.num_choices w' = StreamWrapper.num_choices w
  /\ length (StreamWrapper.choices w') = length (StreamWrapper.choices w).
Proof. open_process_chunk w c append_loop_length; repeat split; auto. Qed.

Lemma process_chunk_response_id (w : StreamWrapper.t) (c : Chunk) :
  StreamWrapper.response_id (fst (StreamWrapper.process_chunk w c))
  = match StreamWrapper.response_id w with
    | Some id => Some id
    | None => chunk_id c
    end.
Proof. open_process_chunk w c append_loop_length; reflexivity. Qed.

Lemma process_chunk_response_model (w : StreamWrapper.t) (c : Chunk) :
  StreamWrapper.response_model (fst (StreamWrapper.process_chunk w c))
  = match StreamWrapper.response_model w with
    | Some m => Some m
    | None => chunk_model c
    end.
Proof. open_process_chunk w c append_loop_length; reflexivity. Qed.

Lemma process_chunk_tokens (w : StreamWrapper.t) (c : Chunk) :
  StreamWrapper.prompt_tokens (fst (StreamWrapper.process_chunk w c))
  = match chunk_usage c with
    | Some usage => u_prompt_tokens usage
    | None => StreamWrapper.prompt_tokens w
    end
  /\ StreamWrapper.completion_tokens (fst (StreamWrapper.process_chunk w c))
     = match chunk_usage c with
       | Some usage => u_completion_tokens usage
       | None => StreamWrapper.completion_tokens w
       end.
Proof. open_process_chunk w c append_loop_length; split; reflexivity. Qed.

(** The buffers after a chunk are those of the loop over its choices. *)
Lemma process_chunk_choices (w : StreamWrapper.t) (c : Chunk) :
  StreamWrapper.choices (fst (StreamWrapper.process_chunk w c))
  = match chunk_choices c with
    | Some cs => fst (StreamWrapper.append_loop (StreamWrapper.choices w) cs)
    | None => StreamWrapper.choices w
    end
  /\ snd (StreamWrapper.process_chunk w c)
     = match chunk_choices c with
       | Some cs => snd (StreamWrapper.append_loop (StreamWrapper.choices w) cs)
       | None => None
       end.
Proof.
  destruct w as [s sp bufs rm ri n lg pt ct st].
  unfold StreamWrapper.process_chunk; cbn.
  destruct ri, rm, (chunk_usage c), (chunk_choices c) as [cs |]; cbn;
    try destruct (StreamWrapper.append_loop bufs cs); auto.
Qed.

Lemma first_some_cons_match {A} (o : option A) (l : list (option A)) :
  first_some (o :: l) = match o with Some x => Some x | None => first_some l end.
Proof. destruct o; reflexivity. Qed.

Lemma feed_response_id (cs : list Chunk) :
  forall w,
    StreamWrapper.response_id (feed w cs)
    = first_some (StreamWrapper.response_id w :: map chunk_id cs).
Proof.
  unfold feed. induction cs as [| c cs IH]; intros w; simpl.
  - now destruct (StreamWrapper.response_id w).
  - rewrite IH, process_chunk_response_id.
    destruct (StreamWrapper.response_id w); simpl; [reflexivity |].
    now destruct (chunk_id c).
Qed.

Lemma feed_response_model (cs : list Chunk) :
  forall w,
    StreamWrapper.response_model (feed w cs)
    = first_some (StreamWrapper.response_model w :: map chunk_model cs).
Proof.
  unfold feed. induction cs as [| c cs IH]; intros w; simpl.
  - now destruct (StreamWrapper.response_model w).
  - rewrite IH, process_chunk_response_model.
    destruct (StreamWrapper.response_model w); simpl; [reflexivity |].
    now destruct (chunk_model c).
Qed.

(** [C6] [response_id] and [response_model] are first-write-wins.  One
    chunk: a value already set stays, an unset one takes the chunk's.
    Any sequence of chunks fed to a new wrapper: the final value is the
    first non-null one of the sequence.  And the wrapper iterated over
    chunks with ids [null, "abc", "xyz"] ends with [response_id = "abc"]. *)
Theorem identity_fields_first_write_wins :
  (forall w c,
      StreamWrapper.response_id (fst (StreamWrapper.process_chunk w c))
      = match StreamWrapper.response_id w with
        | Some id => Some id
        | None => chunk_id c
        end
      /\ StreamWrapper.response_model (fst (StreamWrapper.process_chunk w c))
         = match StreamWrapper.response_model w with
           | Some m => Some m
           | None => chunk_model c
           end)
  /\ (forall stream n span lg cs,
         let w := feed (StreamWrapper.__init__ stream n span lg) cs in
         StreamWrapper.response_id w = first_some (map chunk_id cs)
         /\ StreamWrapper.response_model w = first_some (map chunk_model cs))
  /\ (let script := [PChunk (Sample.chunk None None []);
                     PChunk (Sample.chunk (Some "abc") None []);
                     PChunk (Sample.chunk (Some "xyz") None [])] in
      (fun r => StreamWrapper.response_id (fst (fst r)))
        <$> iterate 4 (Sample.wrapper script 1) []
      = Some (Some "abc")).
Proof.
  split; [| split].
  - intros w c. split.
    + apply process_chunk_response_id.
    + apply process_chunk_response_model.
  - intros stream n span lg cs w. subst w. split.
    + now rewrite feed_response_id.
    + now rewrite feed_response_model.
  - vm_compute. reflexivity.
Qed.

Lemma feed_tokens (cs : list Chunk) :
  forall w,
    StreamWrapper.prompt_tokens (feed w cs)
    = last_some (StreamWrapper.prompt_tokens w)
        (map (fun c => u_prompt_tokens <$> chunk_usage c) cs)
    /\ StreamWrapper.completion_tokens (feed w cs)
       = last_some (StreamWrapper.completion_tokens w)
           (map (fun c => u_completion_tokens <$> chunk_usage c) cs).
Proof.
  unfold feed, last_some. induction cs as [| c cs IH]; intros w; simpl.
  - auto.
  - destruct (IH (fst (StreamWrapper.process_chunk w c))) as [-> ->].
    destruct (process_chunk_tokens w c) as [-> ->].
    now destruct (chunk_usage c).
Qed.

(** [C7] [prompt_tokens] and [completion_tokens] are last-write-wins.
    One chunk: usage data overwrites both counters with the chunk's
    values (nothing is added up), no usage data leaves them.  Any
    sequence of chunks: the final counters are those of the last chunk
    that carried usage data.  And usage (10, 1) followed by (10, 2)
    ends with [completion_tokens = 2]. *)
Theorem usage_fields_last_write_wins :
  (forall w c,
      StreamWrapper.prompt_tokens (fst (StreamWrapper.process_chunk w c))
      = match chunk_usage c with
        | Some usage => u_prompt_tokens usage
        | None => StreamWrapper.prompt_tokens w
        end
      /\ StreamWrapper.completion_tokens (fst (StreamWrapper.process_chunk w c))
         = match chunk_usage c with
           | Some usage => u_completion_tokens usage
           | None => StreamWrapper.completion_tokens w
           end)
  /\ (forall w cs,
         StreamWrapper.prompt_tokens (feed w cs)
         = last_some (StreamWrapper.prompt_tokens w)
             (map (fun c => u_prompt_tokens <$> chunk_usage c) cs)
         /\ StreamWrapper.completion_tokens (feed w cs)
            = last_some (StreamWrapper.completion_tokens w)
                (map (fun c => u_completion_tokens <$> chunk_usage c) cs))
  /\ (let usage p c := Some {| u_prompt_tokens := p; u_completion_tokens := c |} in
      let script := [PChunk (Sample.chunk (Some "r1") (usage 10 1)%Z []);
                     PChunk (Sample.chunk (Some "r1") (usage 10 2)%Z [])] in
      (fun r => (StreamWrapper.prompt_tokens (fst (fst r)),
                 StreamWrapper.completion_tokens (fst (fst r))))
        <$> iterate 3 (Sample.wrapper script 1) []
      = Some (10, 2)%Z).
Proof.
  split; [| split].
  - intros w c. apply process_chunk_tokens.
  - intros w cs. apply feed_tokens.
  - vm_compute. reflexivity.
Qed.

(** ** Buffers: where a delta goes and what it adds *)

Lemma string_app_assoc (a b c : string) : (a +:+ b) +:+ c = a +:+ (b +:+ c).
Proof.
  induction a as [| x a IH]; [reflexivity |].
  change (String x ((a +:+ b) +:+ c) = String x (a +:+ (b +:+ c))).
  now rewrite IH.
Qed.

Lemma string_app_nil_r (a : string) : a +:+ "" = a.
Proof.
  induction a as [| x a IH]; [reflexivity |].
  change (String x (a +:+ "") = String x a).
  now rewrite IH.
Qed.

Lemma py_index_in_range (n : nat) (i : Z) :
  (0 <= i < Z.of_nat n)%Z -> py_index n i = Some (Z.to_nat i).
Proof.
  intros [H0 H1]. unfold py_index.
  destruct (Z.leb_spec 0 i); [| lia].
  destruct (Z.ltb_spec i (Z.of_nat n)); [reflexivity | lia].
Qed.

Section Buffers.

Implicit Types (b : ChoiceBuffer.t) (d : ChunkChoice) (ds : list ChunkChoice).

Lemma append_content b d :
  ChoiceBuffer.content_str (ChoiceBuffer.append b d)
  = ChoiceBuffer.content_str b +:+ delta_text d.
Proof.
  unfold ChoiceBuffer.append, delta_text. simpl.
  destruct (cc_delta d) as [[[s |]] |]; simpl;
    now rewrite ?string_app_nil_r.
Qed.

Lemma append_index b d :
  ChoiceBuffer.index (ChoiceBuffer.append b d) = ChoiceBuffer.index b.
Proof. reflexivity. Qed.

Lemma append_finish_reason b d :
  ChoiceBuffer.finish_reason (ChoiceBuffer.append b d)
  = match cc_finish_reason d with
    | Some r => Some r
    | None => ChoiceBuffer.finish_reason b
    end.
Proof. reflexivity. Qed.

Lemma appends_content ds :
  forall b,
    ChoiceBuffer.content_str (fold_left ChoiceBuffer.append ds b)
    = ChoiceBuffer.content_str b +:+ concat_text ds.
Proof.
  induction ds as [| d ds IH]; intros b.
  - simpl. now rewrite string_app_nil_r.
  - change (concat_text (d :: ds)) with (delta_text d +:+ concat_text ds).
    cbn [fold_left]. now rewrite IH, append_content, string_app_assoc.
Qed.

Lemma appends_index ds :
  forall b,
    ChoiceBuffer.index (fold_left ChoiceBuffer.append ds b) = ChoiceBuffer.index b.
Proof. induction ds as [| d ds IH]; intros b; simpl; [| rewrite IH]; auto. Qed.

Lemma appends_finish_reason_unset ds :
  Forall (fun d => cc_finish_reason d = None) ds ->
  forall b,
    ChoiceBuffer.finish_reason (fold_left ChoiceBuffer.append ds b)
    = ChoiceBuffer.finish_reason b.
Proof.
  induction 1 as [| d ds Hd _ IH]; intros b; simpl; [reflexivity |].
  now rewrite IH, append_finish_reason, Hd.
Qed.

(** On well-formed deltas the loop of [process_chunk] does not raise and
    sends each delta to the buffer at its index. *)
Lemma append_loop_well_formed (cs : list (option ChunkChoice)) :
  forall bufs,
    Forall (delta_ok (length bufs)) (omap id cs) ->
    StreamWrapper.append_loop bufs cs
    = (fold_left
         (fun bufs d =>
            alter (fun b => ChoiceBuffer.append b d) (Z.to_nat (cc_index d)) bufs)
         (omap id cs) bufs,
       None).
Proof.
  induction cs as [| [d |] cs IH]; intros bufs Hok; simpl in *.
  - reflexivity.
  - inversion Hok as [| ? ? Hd Hrest]; subst.
    rewrite (py_index_in_range _ _ Hd).
    apply IH. now rewrite length_alter.
  - now apply IH.
Qed.

Lemma lookup_alter_fold ds (i : nat) :
  forall bufs : list ChoiceBuffer.t,
    Forall (fun d => (0 <= cc_index d)%Z) ds ->
    fold_left
      (fun bufs d =>
         alter (fun b => ChoiceBuffer.append b d) (Z.to_nat (cc_index d)) bufs)
      ds bufs !! i
    = fold_left ChoiceBuffer.append
        (List.filter (fun d => (cc_index d =? Z.of_nat i)%Z) ds)
      <$> bufs !! i.
Proof.
  induction ds as [| d ds IH]; intros bufs Hok; simpl.
  - now destruct (bufs !! i).
  - inversion Hok as [| ? ? Hd Hrest]; subst.
    rewrite (IH _ Hrest).
    destruct (Z.eqb_spec (cc_index d) (Z.of_nat i)) as [E | E]; simpl.
    + replace (Z.to_nat (cc_index d)) with i by lia.
      rewrite list_lookup_alter_eq. now destruct (bufs !! i).
    + rewrite list_lookup_alter_ne by lia. reflexivity.
Qed.

End Buffers.

Lemma delta_ok_nonneg (n : nat) (ds : list ChunkChoice) :
  Forall (delta_ok n) ds -> Forall (fun d => (0 <= cc_index d)%Z) ds.
Proof. intros H. eapply Forall_impl; [exact H |]. unfold delta_ok. intros d. lia. Qed.

Lemma process_chunk_well_formed (w : StreamWrapper.t) (c : Chunk) (i : nat) :
  well_formed (length (StreamWrapper.choices w)) c ->
  snd (StreamWrapper.process_chunk w c) = None
  /\ StreamWrapper.choices (fst (StreamWrapper.process_chunk w c)) !! i
     = fold_left ChoiceBuffer.append
         (List.filter (fun d => (cc_index d =? Z.of_nat i)%Z) (chunk_deltas c))
       <$> StreamWrapper.choices w !! i.
Proof.
  intros Hwf. destruct (process_chunk_choices w c) as [-> ->].
  unfold well_formed, chunk_deltas in *.
  destruct (chunk_choices c) as [cs |]; simpl.
  - rewrite (append_loop_well_formed _ _ Hwf). simpl. split; [reflexivity |].
    apply lookup_alter_fold. eapply delta_ok_nonneg, Hwf.
  - split; [reflexivity |]. now destruct (_ !! i).
Qed.

Lemma feed_frame (cs : list Chunk) :
  forall w,
    StreamWrapper.span (feed w cs) = StreamWrapper.span w
    /\ StreamWrapper.event_logger (feed w cs) = StreamWrapper.event_logger w
    /\ StreamWrapper._span_started (feed w cs) = StreamWrapper._span_started w
    /\ length (StreamWrapper.choices (feed w cs)) = length (StreamWrapper.choices w).
Proof.
  unfold feed. induction cs as [| c cs IH]; intros w; simpl; [auto |].
  destruct (IH (fst (StreamWrapper.process_chunk w c))) as (-> & -> & -> & ->).
  destruct (process_chunk_frame w c) as (_ & -> & -> & -> & _ & ->). auto.
Qed.

(** The buffer at position [i] after a sequence of well-formed chunks has
    received exactly the deltas for index [i], in arrival order. *)
Lemma feed_lookup (cs : list Chunk) (i : nat) :
  forall w,
    Forall (well_formed (length (StreamWrapper.choices w))) cs ->
    StreamWrapper.choices (feed w cs) !! i
    = fold_left ChoiceBuffer.append (deltas_for (Z.of_nat i) cs)
      <$> StreamWrapper.choices w !! i.
Proof.
  unfold feed, deltas_for. induction cs as [| c cs IH]; intros w Hwf; simpl.
  - now destruct (_ !! i).
  - inversion Hwf as [| ? ? Hc Hrest]; subst.
    destruct (process_chunk_well_formed w c i Hc) as [_ Hl].
    rewrite IH, Hl.
    + rewrite List.filter_app.
      destruct (StreamWrapper.choices w !! i); simpl; [| reflexivity].
      now rewrite fold_left_app.
    + destruct (process_chunk_frame w c) as (_ & _ & _ & _ & _ & ->). exact Hrest.
Qed.

Lemma init_choices (stream : RawResult) (n : Z) (span : Span) (lg : EventLogger) :
  StreamWrapper.choices (StreamWrapper.__init__ stream n span lg)
  = map (fun i => ChoiceBuffer.__init__ (Z.of_nat i)) (seq 0 (Z.to_nat n)).
Proof. reflexivity. Qed.

Lemma init_lookup (stream : RawResult) (n : Z) (span : Span) (lg : EventLogger) (i : nat) :
  i < Z.to_nat n ->
  StreamWrapper.choices (StreamWrapper.__init__ stream n span lg) !! i
  = Some (ChoiceBuffer.__init__ (Z.of_nat i)).
Proof.
  intros Hi. rewrite init_choices.
  change (map ?f ?l) with (f <$> l). rewrite list_lookup_fmap.
  now rewrite lookup_seq_lt.
Qed.

Lemma init_length (stream : RawResult) (n : Z) (span : Span) (lg : EventLogger) :
  length (StreamWrapper.choices (StreamWrapper.__init__ stream n span lg)) = Z.to_nat n.
Proof. rewrite init_choices. now rewrite length_map, length_seq. Qed.

(** ** Finalization *)

Lemma cleanup_loop_spec (sp : Span) (bufs : list ChoiceBuffer.t) :
  forall frs lg,
    StreamWrapper.cleanup_loop sp bufs frs lg
    = (frs ++ finish_reasons_of bufs, lg ++ choice_events sp bufs).
Proof.
  induction bufs as [| b bufs IH]; intros frs lg; simpl.
  - now rewrite !app_nil_r.
  - rewrite IH. unfold emit. now rewrite <- !app_assoc.
Qed.

Lemma choice_events_ids (sp sp' : Span) (bufs : list ChoiceBuffer.t) :
  trace_id sp = trace_id sp' -> span_id sp = span_id sp' ->
  choice_events sp bufs = choice_events sp' bufs.
Proof.
  intros Ht Hs. unfold choice_events, StreamWrapper.choice_event.
  now rewrite Ht, Hs.
Qed.

Lemma cleanup_not_started (w : StreamWrapper.t) (exc_val : option PyError) :
  StreamWrapper._span_started w = false ->
  StreamWrapper.cleanup w exc_val = (w, None).
Proof. intros H. unfold StreamWrapper.cleanup. now rewrite H. Qed.

(** What one effective [cleanup] does: it adds [finalize_calls] to the
    span, one event per buffer to the logger, lets the in-flight
    exception out, and lowers [_span_started] only when there is none. *)
Lemma cleanup_started (w : StreamWrapper.t) (exc_val : option PyError) :
  StreamWrapper._span_started w = true ->
  let w' := fst (StreamWrapper.cleanup w exc_val) in
  calls (StreamWrapper.span w')
    = calls (StreamWrapper.span w) ++ finalize_calls w exc_val
  /\ StreamWrapper.event_logger w'
     = StreamWrapper.event_logger w
       ++ choice_events (StreamWrapper.span w) (StreamWrapper.choices w)
  /\ snd (StreamWrapper.cleanup w exc_val) = exc_val
  /\ StreamWrapper._span_started w'
     = match exc_val with Some _ => true | None => false end
  /\ StreamWrapper.choices w' = StreamWrapper.choices w
  /\ StreamWrapper.stream w' = StreamWrapper.stream w.
Proof.
  intros Hst. unfold StreamWrapper.cleanup. rewrite Hst.
  rewrite cleanup_loop_spec. cbn [app].
  set (sp1 := _set_response_attributes _ _ _ _ _).
  assert (Hc1 : calls sp1 = calls (StreamWrapper.span w)
                 ++ (if is_recording (StreamWrapper.span w)
                     then response_calls
                            (of_opt_str (StreamWrapper.response_model w))
                            (of_opt_str (StreamWrapper.response_id w))
                            (PyInt (StreamWrapper.prompt_tokens w))
                            (PyInt (StreamWrapper.completion_tokens w))
                     else []))
    by apply _set_response_attributes_calls.
  destruct (_set_response_attributes_ids (StreamWrapper.span w)
              (of_opt_str (StreamWrapper.response_model w))
              (of_opt_str (StreamWrapper.response_id w))
              (PyInt (StreamWrapper.prompt_tokens w))
              (PyInt (StreamWrapper.completion_tokens w))) as [Ht Hs].
  fold sp1 in Ht, Hs.
  rewrite (choice_events_ids sp1 (StreamWrapper.span w)) by assumption.
  set (sp2 := _set_span_attribute sp1 _ _).
  assert (Hc2 : calls sp2 = calls (StreamWrapper.span w) ++
                  (if is_recording (StreamWrapper.span w)
                   then response_calls
                          (of_opt_str (StreamWrapper.response_model w))
                          (of_opt_str (StreamWrapper.response_id w))
                          (PyInt (StreamWrapper.prompt_tokens w))
                          (PyInt (StreamWrapper.completion_tokens w))
                   else [])
                  ++ [SetAttribute GEN_AI_RESPONSE_FINISH_REASONS
                        (PyStrList (finish_reasons_of (StreamWrapper.choices w)))]).
  { subst sp2. rewrite _set_span_attribute_calls, Hc1.
    now rewrite <- app_assoc. }
  clearbody sp2. clear Hc1 Ht Hs. clearbody sp1.
  unfold finalize_calls.
  destruct exc_val as [e |]; cbn; rewrite Hc2, <- !app_assoc;
    repeat split; first [reflexivity | exact Hst].
Qed.

(** ** Pulling chunks *)

Lemma set_stream_same (w : StreamWrapper.t) (s : RawResult) :
  StreamWrapper.stream w = s -> StreamWrapper.set_stream s w = w.
Proof. intros <-. now destruct w. Qed.

Lemma set_stream_twice (w : StreamWrapper.t) (s s' : RawResult) :
  StreamWrapper.set_stream s (StreamWrapper.set_stream s' w)
  = StreamWrapper.set_stream s w.
Proof. reflexivity. Qed.

Lemma process_chunk_set_stream (w : StreamWrapper.t) (s : RawResult) (c : Chunk) :
  StreamWrapper.process_chunk (StreamWrapper.set_stream s w) c
  = (StreamWrapper.set_stream s (fst (StreamWrapper.process_chunk w c)),
     snd (StreamWrapper.process_chunk w c)).
Proof.
  destruct w as [s0 sp bufs rm ri n lg pt ct st].
  unfold StreamWrapper.process_chunk; cbn.
  destruct ri, rm, (chunk_usage c), (chunk_choices c) as [cs |]; cbn;
    try destruct (StreamWrapper.append_loop bufs cs); reflexivity.
Qed.

Lemma feed_set_stream (s : RawResult) (cs : list Chunk) :
  forall w,
    feed (StreamWrapper.set_stream s w) cs = StreamWrapper.set_stream s (feed w cs).
Proof.
  unfold feed. induction cs as [| c cs IH]; intros w; simpl; [reflexivity |].
  rewrite process_chunk_set_stream. cbn [fst]. apply IH.
Qed.

(** A well-formed chunk is applied to the state and handed to the caller. *)
Lemma next_chunk (w : StreamWrapper.t) (c : Chunk) (rest : list Pull) :
  StreamWrapper.stream w = Stream (PChunk c :: rest) ->
  well_formed (length (StreamWrapper.choices w)) c ->
  StreamWrapper.__next__ w
  = (StreamWrapper.set_stream (Stream rest) (fst (StreamWrapper.process_chunk w c)),
     StreamWrapper.Return c).
Proof.
  intros Hs Hwf. unfold StreamWrapper.__next__. rewrite Hs. cbn.
  rewrite process_chunk_set_stream.
  destruct (process_chunk_well_formed w c 0 Hwf) as [-> _]. reflexivity.
Qed.

Lemma next_exhausted (w : StreamWrapper.t) :
  StreamWrapper.stream w = Stream [] ->
  StreamWrapper.__next__ w
  = (fst (StreamWrapper.cleanup w None), StreamWrapper.RaiseStopIteration).
Proof.
  intros Hs. unfold StreamWrapper.__next__. rewrite Hs. cbn.
  rewrite (set_stream_same w) by assumption.
  destruct (StreamWrapper._span_started w) eqn:Hst.
  - destruct (cleanup_started w None Hst) as (_ & _ & Hr & _).
    destruct (StreamWrapper.cleanup w None) as [w' r]. cbn in *. now subst r.
  - now rewrite cleanup_not_started.
Qed.

Lemma next_failure (w : StreamWrapper.t) (e : PyError) (rest : list Pull) :
  StreamWrapper.stream w = Stream (PRaise e :: rest) ->
  StreamWrapper.__next__ w
  = (fst (StreamWrapper.cleanup (StreamWrapper.set_stream (Stream rest) w) (Some e)),
     StreamWrapper.Raise e).
Proof.
  intros Hs. unfold StreamWrapper.__next__. rewrite Hs. cbn.
  unfold StreamWrapper.except_Exception.
  set (w1 := StreamWrapper.set_stream (Stream rest) w).
  destruct (StreamWrapper._span_started w1) eqn:Hst.
  - destruct (cleanup_started w1 (Some e) Hst) as (_ & _ & Hr & _).
    destruct (StreamWrapper.cleanup w1 (Some e)) as [w' r]. cbn in *. now subst r.
  - now rewrite cleanup_not_started.
Qed.

(** The loop over a script that starts with well-formed chunks hands
    them to the caller one by one and reaches the state [feed] describes. *)
Lemma iterate_chunks (cs : list Chunk) :
  forall w rest seen fuel,
    StreamWrapper.stream w = Stream (map PChunk cs ++ rest) ->
    Forall (well_formed (length (StreamWrapper.choices w))) cs ->
    iterate (length cs + fuel) w seen
    = iterate fuel (StreamWrapper.set_stream (Stream rest) (feed w cs)) (seen ++ cs).
Proof.
  induction cs as [| c cs IH]; intros w rest seen fuel Hs Hwf.
  - cbn. now rewrite app_nil_r, (set_stream_same w).
  - inversion Hwf as [| ? ? Hc Hrest]; subst.
    cbn [length Nat.add iterate].
    rewrite (next_chunk w c (map PChunk cs ++ rest) Hs Hc).
    rewrite (IH _ rest).
    + rewrite feed_set_stream, set_stream_twice.
      now rewrite <- app_assoc.
    + reflexivity.
    + cbn. destruct (process_chunk_frame w c) as (_ & _ & _ & _ & _ & ->).
      exact Hrest.
Qed.

(** The loop over a script of well-formed chunks only: it ends by
    exhaustion, in the state [cleanup] leaves after all chunks were applied. *)
Lemma iterate_to_exhaustion (cs : list Chunk) (w : StreamWrapper.t) (fuel : nat) :
  StreamWrapper.stream w = Stream (map PChunk cs) ->
  Forall (well_formed (length (StreamWrapper.choices w))) cs ->
  length cs < fuel ->
  iterate fuel w []
  = Some (fst (StreamWrapper.cleanup
                 (StreamWrapper.set_stream (Stream []) (feed w cs)) None),
          cs, None).
Proof.
  intros Hs Hwf Hfuel.
  replace fuel with (length cs + S (fuel - S (length cs))) by lia.
  rewrite (iterate_chunks cs w [] []); [| now rewrite app_nil_r | assumption].
  cbn [iterate]. now rewrite next_exhausted.
Qed.

(** [C5] Pass-through: a caller that iterates a wrapper whose upstream
    produces the well-formed chunks [cs] and is then exhausted sees
    exactly [cs], in order and unchanged, and then the end of the
    sequence. *)
Theorem pass_through_transparency
    (w : StreamWrapper.t) (cs : list Chunk) (fuel : nat) :
  StreamWrapper.stream w = Stream (map PChunk cs) ->
  Forall (well_formed (length (StreamWrapper.choices w))) cs ->
  length cs < fuel ->
  exists w', iterate fuel w [] = Some (w', cs, None).
Proof.
  intros Hs Hwf Hfuel. eexists. now apply iterate_to_exhaustion.
Qed.

Lemma pass_through_transparency_witness :
  let cs := [Sample.chunk (Some "r1") None [Sample.delta 0 (Some "A") None];
             Sample.chunk None None [Sample.delta 1 (Some "B") None];
             Sample.chunk None None [Sample.delta 0 (Some "!") (Some "stop");
                                     Sample.delta 1 None (Some "stop")]] in
  exists w', iterate 4 (Sample.wrapper (map PChunk cs) 2) [] = Some (w', cs, None).
Proof.
  intros cs. apply (pass_through_transparency (Sample.wrapper (map PChunk cs) 2) cs 4).
  - reflexivity.
  - unfold well_formed, delta_ok. simpl. repeat constructor; simpl; lia.
  - simpl. lia.
Defined.

(** The state a new wrapper reaches on well-formed chunks, buffer by buffer. *)
Lemma iterate_new_wrapper (n : Z) (span : Span) (lg : EventLogger)
    (cs : list Chunk) (i : nat) (fuel : nat) :
  i < Z.to_nat n ->
  Forall (well_formed (Z.to_nat n)) cs ->
  length cs < fuel ->
  exists w',
    iterate fuel (StreamWrapper.__init__ (Stream (map PChunk cs)) n span lg) []
    = Some (w', cs, None)
    /\ StreamWrapper.choices w' !! i
       = Some (fold_left ChoiceBuffer.append (deltas_for (Z.of_nat i) cs)
                 (ChoiceBuffer.__init__ (Z.of_nat i)))
    /\ length (StreamWrapper.choices w') = Z.to_nat n
    /\ StreamWrapper.choices w'
       = StreamWrapper.choices
           (feed (StreamWrapper.__init__ (Stream (map PChunk cs)) n span lg) cs)
    /\ calls (StreamWrapper.span w')
       = calls span
         ++ finalize_calls
              (feed (StreamWrapper.__init__ (Stream (map PChunk cs)) n span lg) cs) None
    /\ StreamWrapper.event_logger w'
       = lg ++ choice_events span (StreamWrapper.choices w').
Proof.
  intros Hi Hwf Hfuel.
  set (w0 := StreamWrapper.__init__ (Stream (map PChunk cs)) n span lg).
  assert (Hwf0 : Forall (well_formed (length (StreamWrapper.choices w0))) cs)
    by (unfold w0; now rewrite init_length).
  eexists. split; [apply iterate_to_exhaustion; [reflexivity | exact Hwf0 | exact Hfuel] |].
  set (w1 := StreamWrapper.set_stream (Stream []) (feed w0 cs)).
  destruct (feed_frame cs w0) as (Hsp & Hlg & Hst & Hlen).
  assert (Hst1 : StreamWrapper._span_started w1 = true)
    by (change (StreamWrapper._span_started (feed w0 cs) = true); now rewrite Hst).
  destruct (cleanup_started w1 None Hst1) as (Hc & He & _ & _ & Hch & _).
  cbn zeta in Hc, He, Hch. rewrite Hch, Hc, He.
  change (StreamWrapper.choices w1) with (StreamWrapper.choices (feed w0 cs)).
  change (StreamWrapper.span w1) with (StreamWrapper.span (feed w0 cs)).
  change (StreamWrapper.event_logger w1) with (StreamWrapper.event_logger (feed w0 cs)).
  change (finalize_calls w1 None) with (finalize_calls (feed w0 cs) None).
  rewrite Hsp, Hlg, Hlen. repeat split.
  - rewrite (feed_lookup cs i w0 Hwf0). unfold w0. now rewrite init_lookup.
  - unfold w0. apply init_length.
Qed.

(** [C8] Text accumulation: after a new wrapper for [n] choices has been
    iterated over the well-formed chunks [cs], the buffer of every choice
    index [i] holds the concatenation, in arrival order, of the text
    deltas the chunks carried for index [i], and nothing else. *)
Theorem text_accumulates_in_arrival_order
    (n : Z) (span : Span) (lg : EventLogger) (cs : list Chunk) (i fuel : nat) :
  i < Z.to_nat n ->
  Forall (well_formed (Z.to_nat n)) cs ->
  length cs < fuel ->
  exists w' b,
    iterate fuel (StreamWrapper.__init__ (Stream (map PChunk cs)) n span lg) []
    = Some (w', cs, None)
    /\ StreamWrapper.choices w' !! i = Some b
    /\ ChoiceBuffer.index b = Z.of_nat i
    /\ ChoiceBuffer.content_str b = concat_text (deltas_for (Z.of_nat i) cs).
Proof.
  intros Hi Hwf Hfuel.
  destruct (iterate_new_wrapper n span lg cs i fuel Hi Hwf Hfuel)
    as (w' & Hit & Hb & _).
  exists w'. eexists. split; [exact Hit |]. split; [exact Hb |]. split.
  - now rewrite appends_index.
  - now rewrite appends_content.
Qed.

Lemma text_accumulates_in_arrival_order_witness :
  let cs := [Sample.chunk None None [Sample.delta 0 (Some "Hel") None];
             Sample.chunk None None [Sample.delta 0 (Some "lo") None]] in
  exists w' b,
    iterate 3 (StreamWrapper.__init__ (Stream (map PChunk cs)) 1
                 (start_span Sample.tracer_on "chat gpt-4o") []) []
    = Some (w', cs, None)
    /\ StreamWrapper.choices w' !! 0 = Some b
    /\ ChoiceBuffer.index b = 0%Z
    /\ ChoiceBuffer.content_str b = "Hello".
Proof.
  intros cs.
  apply (text_accumulates_in_arrival_order 1
           (start_span Sample.tracer_on "chat gpt-4o") [] cs 0 3).
  - simpl. lia.
  - unfold well_formed, delta_ok. simpl. repeat constructor; simpl; lia.
  - simpl. lia.
Defined.

(** *** Finalization, whatever triggers it *)

Lemma cleanup_keeps (w : StreamWrapper.t) (exc_val : option PyError) :
  StreamWrapper.choices (fst (StreamWrapper.cleanup w exc_val)) = StreamWrapper.choices w
  /\ StreamWrapper.stream (fst (StreamWrapper.cleanup w exc_val)) = StreamWrapper.stream w.
Proof.
  destruct (StreamWrapper._span_started w) eqn:Hst.
  - destruct (cleanup_started w exc_val Hst) as (_ & _ & _ & _ & Hch & Hs). auto.
  - rewrite cleanup_not_started by assumption. auto.
Qed.

(** Deltas that leave the finish reason of position [i] alone leave it
    unset, whether the loop over them raises or not. *)
Lemma append_loop_quiet (i : nat) (cs : list (option ChunkChoice)) :
  forall bufs,
    Forall (quiet_for (length bufs) i) (omap id cs) ->
    unset_at i bufs ->
    unset_at i (fst (StreamWrapper.append_loop bufs cs)).
Proof.
  induction cs as [| [d |] cs IH]; intros bufs Hq Hu; cbn in Hq.
  - exact Hu.
  - cbn [StreamWrapper.append_loop].
    inversion Hq as [| ? ? Hd Hrest]; subst.
    destruct (py_index (length bufs) (cc_index d)) as [j |] eqn:Hj; [| exact Hu].
    apply IH; [now rewrite length_alter |].
    destruct Hu as (b & Hb & Hix & Hfr).
    destruct (decide (j = i)) as [-> | Hne].
    + exists (ChoiceBuffer.append b d).
      rewrite list_lookup_alter_eq, Hb. split; [reflexivity |].
      split; [exact Hix |].
      rewrite append_finish_reason, (Hd Hj). exact Hfr.
    + exists b. rewrite list_lookup_alter_ne by assumption. auto.
  - cbn [StreamWrapper.append_loop]. now apply IH.
Qed.

Lemma process_chunk_quiet (w : StreamWrapper.t) (c : Chunk) (i : nat) :
  Forall (quiet_for (length (StreamWrapper.choices w)) i) (chunk_deltas c) ->
  unset_at i (StreamWrapper.choices w) ->
  unset_at i (StreamWrapper.choices (fst (StreamWrapper.process_chunk w c))).
Proof.
  intros Hq Hu. destruct (process_chunk_choices w c) as [-> _].
  unfold chunk_deltas in Hq.
  destruct (chunk_choices c) as [cs |]; [| exact Hu].
  now apply append_loop_quiet.
Qed.

(** What one caller operation does to the span and the logger: nothing,
    or one call of [cleanup] on a state with the span and the logger as
    they were. *)
Lemma step_cases (w : StreamWrapper.t) (op : Op) :
  exists w2 exc_val,
    StreamWrapper.span w2 = StreamWrapper.span w
    /\ StreamWrapper.event_logger w2 = StreamWrapper.event_logger w
    /\ (step w op = fst (StreamWrapper.cleanup w2 exc_val) \/ step w op = w2).
Proof.
  destruct op as [| | exc_val].
  - cbn [step]. unfold StreamWrapper.__next__.
    destruct (next_raw (StreamWrapper.stream w)) as [pulled s].
    set (w1 := StreamWrapper.set_stream s w).
    destruct pulled as [c | | e].
    + destruct (process_chunk_frame w1 c) as (_ & Hsp & Hlg & _).
      cbn zeta in Hsp, Hlg.
      destruct (StreamWrapper.process_chunk w1 c) as [w2 [e |]];
        cbn [fst] in Hsp, Hlg.
      * exists w2, (Some e). split; [exact Hsp |]. split; [exact Hlg |]. left.
        unfold StreamWrapper.except_Exception.
        now destruct (StreamWrapper.cleanup w2 (Some e)).
      * exists w2, None. split; [exact Hsp |]. split; [exact Hlg |]. now right.
    + exists w1, None. split; [reflexivity |]. split; [reflexivity |]. left.
      now destruct (StreamWrapper.cleanup w1 None).
    + exists w1, (Some e). split; [reflexivity |]. split; [reflexivity |]. left.
      unfold StreamWrapper.except_Exception.
      now destruct (StreamWrapper.cleanup w1 (Some e)).
  - exists (step w OpEnter), None.
    cbn [step]. unfold StreamWrapper.__enter__, StreamWrapper.setup.
    destruct (StreamWrapper._span_started w); cbn; auto.
  - exists w, exc_val. cbn [step]. unfold StreamWrapper.__exit__. auto.
Qed.

(** Along any sequence of caller operations the wrapper keeps its [n]
    buffers and stands at a point of the upstream script such that, if
    what was pulled so far left the finish reason of choice [i] alone,
    buffer [i] has none. *)
Lemma step_keeps_reading (script : list Pull) (n i : nat) (w : StreamWrapper.t)
    (op : Op) :
  reading script n i w -> reading script n i (step w op).
Proof.
  intros (Hlen & consumed & rest & Hscript & Hs & Hu).
  destruct op as [| | exc_val].
  - cbn [step]. unfold StreamWrapper.__next__. rewrite Hs.
    destruct rest as [| [c | e] rest]; cbn [next_raw].
    + destruct (cleanup_keeps (StreamWrapper.set_stream (Stream []) w) None)
        as [Hch Hst].
      destruct (StreamWrapper.cleanup (StreamWrapper.set_stream (Stream []) w) None)
        as [w' r]. cbn [fst] in *.
      split; [now rewrite Hch |].
      exists consumed, []. split; [exact Hscript |]. split; [exact Hst |].
      rewrite Hch. exact Hu.
    + rewrite process_chunk_set_stream.
      destruct (process_chunk_frame w c) as (_ & _ & _ & _ & _ & Hlen1).
      cbn zeta in Hlen1.
      assert (Hu1 : Forall (chunk_quiet_for n i) (consumed ++ [PChunk c]) ->
                    unset_at i (StreamWrapper.choices
                                  (fst (StreamWrapper.process_chunk w c)))).
      { intros Hq. apply Forall_app in Hq as [Hq1 Hq2].
        apply Forall_inv in Hq2. cbn in Hq2.
        apply process_chunk_quiet; [now rewrite Hlen | auto]. }
      set (w1 := StreamWrapper.set_stream (Stream rest)
                   (fst (StreamWrapper.process_chunk w c))).
      assert (Hgoal : forall w', StreamWrapper.choices w' = StreamWrapper.choices w1 ->
                                 StreamWrapper.stream w' = Stream rest ->
                                 reading script n i w').
      { intros w' Hch Hst. split; [rewrite Hch; cbn; congruence |].
        exists (consumed ++ [PChunk c]), rest.
        split; [now rewrite <- app_assoc |]. split; [exact Hst |].
        rewrite Hch. exact Hu1. }
      destruct (snd (StreamWrapper.process_chunk w c)) as [e |].
      * unfold StreamWrapper.except_Exception.
        destruct (cleanup_keeps w1 (Some e)) as [Hch Hst].
        destruct (StreamWrapper.cleanup w1 (Some e)) as [w' r]. cbn [fst] in *.
        now apply Hgoal.
      * cbn [fst]. now apply Hgoal.
    + unfold StreamWrapper.except_Exception.
      set (w1 := StreamWrapper.set_stream (Stream rest) w).
      destruct (cleanup_keeps w1 (Some e)) as [Hch Hst].
      destruct (StreamWrapper.cleanup w1 (Some e)) as [w' r]. cbn [fst] in *.
      split; [now rewrite Hch |].
      exists (consumed ++ [PRaise e]), rest.
      split; [now rewrite <- app_assoc |]. split; [exact Hst |].
      rewrite Hch. intros Hq. apply Forall_app in Hq as [Hq1 _]. auto.
  - cbn [step]. unfold StreamWrapper.__enter__, StreamWrapper.setup.
    destruct (StreamWrapper._span_started w); cbn.
    + split; [exact Hlen |]. now exists consumed, rest.
    + split; [exact Hlen |]. now exists consumed, rest.
  - cbn [step]. unfold StreamWrapper.__exit__.
    destruct (cleanup_keeps w exc_val) as [Hch Hst].
    split; [now rewrite Hch |].
    exists consumed, rest. split; [exact Hscript |].
    split; [now rewrite Hst |]. now rewrite Hch.
Qed.

Lemma run_keeps_reading (script : list Pull) (n i : nat) (ops : list Op) :
  forall w, reading script n i w -> reading script n i (run w ops).
Proof.
  induction ops as [| op ops IH]; intros w Hr; [exact Hr |].
  change (run w (op :: ops)) with (run (step w op) ops).
  now apply IH, step_keeps_reading.
Qed.

Lemma new_wrapper_reading (script : list Pull) (n : Z) (span : Span)
    (lg : EventLogger) (i : nat) :
  i < Z.to_nat n ->
  reading script (Z.to_nat n) i (StreamWrapper.__init__ (Stream script) n span lg).
Proof.
  intros Hi. split; [apply init_length |].
  exists [], script. split; [reflexivity |]. split; [reflexivity |].
  intros _. exists (ChoiceBuffer.__init__ (Z.of_nat i)).
  split; [now apply init_lookup |]. split; reflexivity.
Qed.

(** [C2] A finish reason that no chunk set is reported as ["error"] in
    the span's [finish_reasons] list; the choice event carries it
    unchanged, as null.  This holds of every finalization, whatever
    triggers it.  Take a new wrapper for [n] choices on any upstream
    script, any sequence [ops] of pulls, scoped entries and scoped exits,
    and one more operation [op] that finalizes, that is, that ends the
    span (exhaustion, an upstream failure, a chunk that cannot be
    applied, a scoped exit; a first finalization or a repeated one).  If
    none of the chunks pulled by then carried a finish reason for choice
    [i], then [op] sets the list of finish reasons as the last attribute
    before the span is ended, with ["error"] at position [i], and the
    [i]-th event it emits is the choice event of index [i] with a null
    [finish_reason]. *)
Theorem unset_finish_reason_reported
    (script consumed rest : list Pull) (n : Z) (span : Span) (lg : EventLogger)
    (i : nat) (ops : list Op) (op : Op) :
  i < Z.to_nat n ->
  let w := run (StreamWrapper.__init__ (Stream script) n span lg) ops in
  let w' := step w op in
  end_count (StreamWrapper.span w') <> end_count (StreamWrapper.span w) ->
  script = consumed ++ rest ->
  StreamWrapper.stream w' = Stream rest ->
  Forall (chunk_quiet_for (Z.to_nat n) i) consumed ->
  exists frs ev pre post,
    calls (StreamWrapper.span w')
    = calls (StreamWrapper.span w) ++ pre
      ++ [SetAttribute GEN_AI_RESPONSE_FINISH_REASONS (PyStrList frs)] ++ post
    /\ (post = [End] \/ exists e, post = error_calls e)
    /\ frs !! i = Some "error"
    /\ StreamWrapper.event_logger w' !! (length (StreamWrapper.event_logger w) + i)
       = Some (Some ev)
    /\ ev_name ev = "gen_ai.choice"
    /\ json_field "index" (ev_body ev) = Some (JInt (Z.of_nat i))
    /\ json_field "finish_reason" (ev_body ev) = Some JNull.
Proof.
  intros Hi w w' Hend Hscript Hstream Hquiet.
  assert (Hr : reading script (Z.to_nat n) i w')
    by (apply step_keeps_reading, run_keeps_reading, new_wrapper_reading, Hi).
  destruct Hr as (Hlen & consumed' & rest' & Hscript' & Hs' & Hu).
  assert (rest' = rest) by congruence. subst rest'.
  assert (consumed' = consumed)
    by (apply (app_inv_tail rest); congruence). subst consumed'.
  specialize (Hu Hquiet).
  destruct (step_cases w op) as (w2 & exc_val & Hsp & Hlg & [Hstep | Hstep]);
    fold w' in Hstep;
    [| exfalso; apply Hend; now rewrite Hstep, Hsp].
  destruct (StreamWrapper._span_started w2) eqn:Hst;
    [| exfalso; apply Hend;
       rewrite Hstep, cleanup_not_started by assumption; cbn [fst];
       now rewrite Hsp].
  destruct (cleanup_started w2 exc_val Hst) as (Hc & He & _ & _ & Hch & _).
  cbn zeta in Hc, He, Hch. rewrite <- Hstep in Hc, He, Hch.
  rewrite Hsp in Hc, He. rewrite Hlg in He.
  destruct Hu as (b & Hb & Hix & Hfr). rewrite Hch in Hb.
  exists (finish_reasons_of (StreamWrapper.choices w2)),
    (StreamWrapper.choice_event (StreamWrapper.span w) b).
  eexists. eexists. split; [rewrite Hc; unfold finalize_calls; reflexivity |].
  split; [destruct exc_val; eauto |]. split; [| split].
  - unfold finish_reasons_of.
    change (map ?f ?l) with (f <$> l). rewrite list_lookup_fmap, Hb.
    cbn. now rewrite Hfr.
  - rewrite He, lookup_app_r by lia.
    replace (length (StreamWrapper.event_logger w) + i
             - length (StreamWrapper.event_logger w)) with i by lia.
    unfold choice_events.
    change (map ?f ?l) with (f <$> l). now rewrite list_lookup_fmap, Hb.
  - cbn. rewrite Hfr, Hix. repeat split; reflexivity.
Qed.

Lemma unset_finish_reason_reported_witness :
  let c := Sample.chunk (Some "r1") None
             [Sample.delta 0 (Some "A") None; Sample.delta 1 (Some "B") (Some "stop")] in
  let late := PChunk (Sample.chunk None None [Sample.delta 0 None (Some "stop")]) in
  let script := [PChunk c; PRaise Sample.boom; late] in
  let span := start_span Sample.tracer_on "chat gpt-4o" in
  let w := run (StreamWrapper.__init__ (Stream script) 2 span []) [OpEnter; OpNext] in
  let w' := step w OpNext in
  exists frs ev pre post,
    calls (StreamWrapper.span w')
    = calls (StreamWrapper.span w) ++ pre
      ++ [SetAttribute GEN_AI_RESPONSE_FINISH_REASONS (PyStrList frs)] ++ post
    /\ (post = [End] \/ exists e, post = error_calls e)
    /\ frs !! 0 = Some "error"
    /\ StreamWrapper.event_logger w' !! (length (StreamWrapper.event_logger w) + 0)
       = Some (Some ev)
    /\ ev_name ev = "gen_ai.choice"
    /\ json_field "index" (ev_body ev) = Some (JInt 0)
    /\ json_field "finish_reason" (ev_body ev) = Some JNull.
Proof.
  intros c late script span.
  apply (unset_finish_reason_reported script [PChunk c; PRaise Sample.boom] [late]
           2 span [] 0 [OpEnter; OpNext] OpNext).
  - simpl. lia.
  - vm_compute. lia.
  - reflexivity.
  - reflexivity.
  - repeat constructor; unfold quiet_for; simpl; first [reflexivity | discriminate].
Defined.

(** [C2], as it is worded, fails: a wrapper for one choice whose stream
    ends before any chunk arrives emits a choice event whose
    [finish_reason] is null, not ["error"]. *)
Lemma unset_finish_reason_event_counterexample :
  exists w' b,
    iterate 1 (Sample.wrapper [] 1) [] = Some (w', [], None)
    /\ StreamWrapper.choices w' !! 0 = Some b
    /\ ChoiceBuffer.finish_reason b = None
    /\ ~ event_reports_error (StreamWrapper.event_logger w') 0.
Proof.
  eexists. eexists. split; [vm_compute; reflexivity |].
  split; [reflexivity |]. split; [reflexivity |].
  intros (ev & Hev & Hfield). cbn in Hev. injection Hev as <-.
  cbn in Hfield. discriminate Hfield.
Qed.

(** ** Upstream failures *)

(** [C4] An upstream failure met while the wrapper is still open is
    recorded and re-raised.  When the upstream produces the well-formed
    chunks [cs] and then raises [e], a caller iterating an open wrapper
    sees exactly [cs] and then [e] itself; by then the span's log ends
    with the error type set to [e]'s class name, the status set to error
    with [e]'s message, and the end of the span; nothing of what the
    script holds after the failure has been pulled. *)
Theorem upstream_failure_recorded_and_reraised
    (w : StreamWrapper.t) (cs : list Chunk) (e : PyError) (rest : list Pull)
    (fuel : nat) :
  StreamWrapper.stream w = Stream (map PChunk cs ++ PRaise e :: rest) ->
  StreamWrapper._span_started w = true ->
  Forall (well_formed (length (StreamWrapper.choices w))) cs ->
  length cs < fuel ->
  exists w' pre,
    iterate fuel w [] = Some (w', cs, Some e)
    /\ calls (StreamWrapper.span w')
       = calls (StreamWrapper.span w) ++ pre
         ++ [SetAttribute ERROR_TYPE (PyStr (qualname e));
             SetStatus ERROR (message e); End]
    /\ StreamWrapper.stream w' = Stream rest.
Proof.
  intros Hs Hst Hwf Hfuel.
  replace fuel with (length cs + S (fuel - S (length cs))) by lia.
  rewrite (iterate_chunks cs w (PRaise e :: rest) []) by assumption.
  cbn [iterate app].
  set (w1 := StreamWrapper.set_stream (Stream (PRaise e :: rest)) (feed w cs)).
  rewrite (next_failure w1 e rest) by reflexivity.
  set (w2 := StreamWrapper.set_stream (Stream rest) w1).
  destruct (feed_frame cs w) as (Hsp & _ & Hst' & _).
  assert (Hst2 : StreamWrapper._span_started w2 = true)
    by (change (StreamWrapper._span_started (feed w cs) = true);
        now rewrite Hst').
  destruct (cleanup_started w2 (Some e) Hst2) as (Hc & _ & _ & _ & _ & Hstream).
  cbn zeta in Hc, Hstream.
  eexists. eexists. split; [reflexivity |]. split.
  - rewrite Hc.
    change (StreamWrapper.span w2) with (StreamWrapper.span (feed w cs)).
    rewrite Hsp. unfold finalize_calls, error_calls.
    rewrite (app_assoc _ [SetAttribute GEN_AI_RESPONSE_FINISH_REASONS _]).
    reflexivity.
  - rewrite Hstream. reflexivity.
Qed.

Lemma upstream_failure_recorded_and_reraised_witness :
  let cs := [Sample.chunk (Some "r1") None [Sample.delta 0 (Some "A") None]] in
  let w := Sample.wrapper (map PChunk cs ++ [PRaise Sample.boom; PChunk (Sample.chunk None None [])]) 1 in
  exists w' pre,
    iterate 2 w [] = Some (w', cs, Some Sample.boom)
    /\ calls (StreamWrapper.span w')
       = calls (StreamWrapper.span w) ++ pre
         ++ [SetAttribute ERROR_TYPE (PyStr "APIConnectionError");
             SetStatus ERROR "Connection error."; End]
    /\ StreamWrapper.stream w' = Stream [PChunk (Sample.chunk None None [])].
Proof.
  intros cs w.
  apply (upstream_failure_recorded_and_reraised w cs Sample.boom
           [PChunk (Sample.chunk None None [])] 2).
  - reflexivity.
  - reflexivity.
  - unfold well_formed, delta_ok. simpl. repeat constructor; simpl; lia.
  - simpl. lia.
Defined.

(** [C4], as it is worded, fails once the wrapper is finalized: after a
    scoped exit without exception, a failure raised by the upstream on
    the next pull is re-raised but nothing of it reaches the span. *)
Lemma failure_after_finalization_counterexample :
  let w0 := Sample.wrapper [PRaise Sample.boom] 1 in
  let w1 := fst (StreamWrapper.__exit__ w0 None) in
  let '(w2, r) := StreamWrapper.__next__ w1 in
  r = StreamWrapper.Raise Sample.boom
  /\ calls (StreamWrapper.span w2) = calls (StreamWrapper.span w1)
  /\ ~ In (SetAttribute ERROR_TYPE (PyStr (qualname Sample.boom)))
          (calls (StreamWrapper.span w2))
  /\ ~ In (SetStatus ERROR (message Sample.boom)) (calls (StreamWrapper.span w2)).
Proof.
  cbv zeta. vm_compute. repeat split; try reflexivity.
  - intros H. repeat (destruct H as [H | H]; [discriminate H |]). exact H.
  - intros H. repeat (destruct H as [H | H]; [discriminate H |]). exact H.
Qed.

(** ** Token counters that no chunk touched *)

Lemma finalize_reports_zero (w : StreamWrapper.t) (exc_val : option PyError) :
  StreamWrapper._span_started w = true ->
  is_recording (StreamWrapper.span w) = true ->
  StreamWrapper.prompt_tokens w = 0%Z ->
  StreamWrapper.completion_tokens w = 0%Z ->
  exists pre post,
    calls (StreamWrapper.span (fst (StreamWrapper.cleanup w exc_val)))
    = calls (StreamWrapper.span w) ++ pre
      ++ [SetAttribute GEN_AI_USAGE_INPUT_TOKENS (PyInt 0);
          SetAttribute GEN_AI_USAGE_OUTPUT_TOKENS (PyInt 0)] ++ post.
Proof.
  intros Hst Hrec Hp Hc.
  destruct (cleanup_started w exc_val Hst) as (Hcalls & _).
  cbn zeta in Hcalls. rewrite Hcalls.
  unfold finalize_calls, response_calls. rewrite Hrec, Hp, Hc.
  exists (attr_call GEN_AI_RESPONSE_MODEL (of_opt_str (StreamWrapper.response_model w))
          ++ attr_call GEN_AI_RESPONSE_ID (of_opt_str (StreamWrapper.response_id w))).
  eexists. rewrite <- !app_assoc. reflexivity.
Qed.

Lemma iterate_no_usage (script : list Pull) :
  forall w fuel seen,
    StreamWrapper.stream w = Stream script ->
    StreamWrapper._span_started w = true ->
    is_recording (StreamWrapper.span w) = true ->
    StreamWrapper.prompt_tokens w = 0%Z ->
    StreamWrapper.completion_tokens w = 0%Z ->
    Forall no_usage script ->
    length script < fuel ->
    exists w' seen' r pre post,
      iterate fuel w seen = Some (w', seen', r)
      /\ calls (StreamWrapper.span w')
         = calls (StreamWrapper.span w) ++ pre
           ++ [SetAttribute GEN_AI_USAGE_INPUT_TOKENS (PyInt 0);
               SetAttribute GEN_AI_USAGE_OUTPUT_TOKENS (PyInt 0)] ++ post.
Proof.
  induction script as [| p script IH];
    intros w fuel seen Hs Hst Hrec Hp Hc Hnu Hfuel;
    (destruct fuel as [| fuel]; [cbn in Hfuel; lia |]); cbn [iterate].
  - rewrite next_exhausted by assumption.
    destruct (finalize_reports_zero w None Hst Hrec Hp Hc) as (pre & post & H).
    now exists (fst (StreamWrapper.cleanup w None)), seen, None, pre, post.
  - inversion Hnu as [| ? ? Hp0 Hrest]; subst.
    destruct p as [c | e].
    + unfold StreamWrapper.__next__. rewrite Hs. cbn [next_raw].
      rewrite process_chunk_set_stream.
      destruct (process_chunk_frame w c) as (_ & Hsp & _ & Hst1 & _).
      destruct (process_chunk_tokens w c) as (Hp1 & Hc1).
      cbn zeta in Hsp, Hst1. cbn in Hp0. rewrite Hp0 in Hp1, Hc1.
      set (w1 := fst (StreamWrapper.process_chunk w c)) in *.
      set (w2 := StreamWrapper.set_stream (Stream script) w1).
      assert (Hsp2 : StreamWrapper.span w2 = StreamWrapper.span w) by exact Hsp.
      assert (Hst2 : StreamWrapper._span_started w2 = true)
        by (change (StreamWrapper._span_started w1 = true); congruence).
      assert (Hrec2 : is_recording (StreamWrapper.span w2) = true) by congruence.
      assert (Hp2 : StreamWrapper.prompt_tokens w2 = 0%Z)
        by (change (StreamWrapper.prompt_tokens w1 = 0%Z); congruence).
      assert (Hc2 : StreamWrapper.completion_tokens w2 = 0%Z)
        by (change (StreamWrapper.completion_tokens w1 = 0%Z); congruence).
      destruct (snd (StreamWrapper.process_chunk w c)) as [e |].
      * unfold StreamWrapper.except_Exception.
        destruct (finalize_reports_zero w2 (Some e) Hst2 Hrec2 Hp2 Hc2)
          as (pre & post & H).
        rewrite Hsp2 in H.
        destruct (StreamWrapper.cleanup w2 (Some e)) as [w3 r3]. cbn in H.
        now exists w3, seen, (Some (match r3 with Some e' => e' | None => e end)),
          pre, post.
      * destruct (IH w2 fuel (seen ++ [c])) as (w' & seen' & r & pre & post & Hit & H);
          try assumption; [reflexivity | cbn in Hfuel; lia |].
        rewrite Hsp2 in H. now exists w', seen', r, pre, post.
    + rewrite (next_failure w e script Hs).
      set (w2 := StreamWrapper.set_stream (Stream script) w).
      destruct (finalize_reports_zero w2 (Some e) Hst Hrec Hp Hc) as (pre & post & H).
      now exists (fst (StreamWrapper.cleanup w2 (Some e))), seen, (Some e), pre, post.
Qed.

(** [C10] When no chunk carried usage data, finalization attaches both
    usage attributes with value 0.  A new wrapper on a recording span,
    iterated over any upstream script whose chunks carry no usage data
    (whether it ends by exhaustion, by an upstream failure or by a chunk
    that cannot be applied), ends with
    [gen_ai.usage.input_tokens = 0] and [gen_ai.usage.output_tokens = 0]
    set on the span, in this order. *)
Theorem zero_usage_attributes_attached
    (script : list Pull) (n : Z) (span : Span) (lg : EventLogger) (fuel : nat) :
  is_recording span = true ->
  Forall no_usage script ->
  length script < fuel ->
  exists w' seen r pre post,
    iterate fuel (StreamWrapper.__init__ (Stream script) n span lg) []
    = Some (w', seen, r)
    /\ calls (StreamWrapper.span w')
       = calls span ++ pre
         ++ [SetAttribute GEN_AI_USAGE_INPUT_TOKENS (PyInt 0);
             SetAttribute GEN_AI_USAGE_OUTPUT_TOKENS (PyInt 0)] ++ post.
Proof.
  intros Hrec Hnu Hfuel.
  apply (iterate_no_usage script
           (StreamWrapper.__init__ (Stream script) n span lg) fuel []);
    auto.
Qed.

Lemma zero_usage_attributes_attached_witness :
  let script := [PChunk (Sample.chunk (Some "r1") None [Sample.delta 0 (Some "A") None])] in
  let span := start_span Sample.tracer_on "chat gpt-4o" in
  exists w' seen r pre post,
    iterate 2 (StreamWrapper.__init__ (Stream script) 1 span []) []
    = Some (w', seen, r)
    /\ calls (StreamWrapper.span w')
       = calls span ++ pre
         ++ [SetAttribute GEN_AI_USAGE_INPUT_TOKENS (PyInt 0);
             SetAttribute GEN_AI_USAGE_OUTPUT_TOKENS (PyInt 0)] ++ post.
Proof.
  intros script span.
  apply (zero_usage_attributes_attached script 1 span [] 2).
  - reflexivity.
  - repeat constructor.
  - simpl. lia.
Defined.

(** ** A span that is not recording *)

(** [C9] When the span is not recording, the interception layer emits
    no event and still makes the wrapped call.  If the call returns, its
    result goes back to the caller as it is (no wrapper around a stream
    either) and not a single call has been made on the span.  If the
    call raises, the same exception reaches the caller. *)
Theorem sampled_out_call_passes_through
    (tracer : Tracer) (lg : EventLogger) (wrapped : Kwargs -> CallResult)
    (kwargs : Kwargs) :
  sampled tracer = false ->
  let o := traced_method tracer lg wrapped kwargs in
  out_events o = lg
  /\ match wrapped kwargs with
     | Returns result => out_result o = ReturnRaw result /\ calls (out_span o) = []
     | Raises error => out_result o = Raised error
     end.
Proof.
  intros Hs. unfold traced_method, is_recording, start_span. cbn.
  rewrite Hs. cbn.
  destruct (wrapped kwargs) as [result | error]; cbn; auto.
Qed.

Lemma sampled_out_call_passes_through_witness :
  let kwargs := Sample.kwargs (PyBool true) (PyFloat 0) (PyInt 2) in
  let script := [PChunk (Sample.chunk (Some "r1") None [])] in
  let o := traced_method Sample.tracer_off [] (fun _ => Returns (Stream script)) kwargs in
  out_events o = []
  /\ out_result o = ReturnRaw (Stream script) /\ calls (out_span o) = [].
Proof.
  intros kwargs script.
  apply (sampled_out_call_passes_through Sample.tracer_off []
           (fun _ => Returns (Stream script)) kwargs).
  reflexivity.
Defined.

(** ** How often finalization takes effect *)

Lemma end_count_app (sp : Span) (l : list SpanCall) (k : nat) :
  length (List.filter is_End l) = k ->
  forall sp', calls sp' = calls sp ++ l -> end_count sp' = end_count sp + k.
Proof.
  intros Hk sp' Hc. unfold end_count.
  now rewrite Hc, List.filter_app, length_app, Hk.
Qed.

Lemma attr_call_no_end (name : string) (v : PyValue) :
  List.filter is_End (attr_call name v) = [].
Proof. unfold attr_call. now destruct (is_not_None v). Qed.

(** One effective [cleanup] ends the span once. *)
Lemma finalize_calls_one_end (w : StreamWrapper.t) (exc_val : option PyError) :
  length (List.filter is_End (finalize_calls w exc_val)) = 1.
Proof.
  unfold finalize_calls, response_calls.
  rewrite !List.filter_app.
  destruct (is_recording (StreamWrapper.span w));
    rewrite ?List.filter_app, ?attr_call_no_end;
    now destruct exc_val.
Qed.

Lemma choice_events_count (sp : Span) (bufs : list ChoiceBuffer.t) :
  choice_event_count (choice_events sp bufs) = length bufs.
Proof.
  unfold choice_event_count.
  induction bufs as [| b bufs IH]; [reflexivity |].
  change (choice_events sp (b :: bufs))
    with (Some (StreamWrapper.choice_event sp b) :: choice_events sp bufs).
  cbn [List.filter].
  change (is_choice_event (Some (StreamWrapper.choice_event sp b))) with true.
  cbn [length]. now rewrite IH.
Qed.

Lemma choice_event_count_app (lg lg' : EventLogger) :
  choice_event_count (lg ++ lg') = choice_event_count lg + choice_event_count lg'.
Proof. unfold choice_event_count. now rewrite List.filter_app, length_app. Qed.

(** Without an exception in flight [cleanup] lowers [_span_started], and
    whatever triggers it afterwards finds nothing to do. *)
Lemma cleanup_idempotent_without_error (w : StreamWrapper.t) (exc_val : option PyError) :
  StreamWrapper.cleanup (fst (StreamWrapper.cleanup w None)) exc_val
  = (fst (StreamWrapper.cleanup w None), None).
Proof.
  destruct (StreamWrapper._span_started w) eqn:Hst.
  - destruct (cleanup_started w None Hst) as (_ & _ & _ & Hst' & _).
    now apply cleanup_not_started.
  - rewrite (cleanup_not_started w None Hst). now apply cleanup_not_started.
Qed.

(** With an exception in flight [_record_error] raises before
    [_span_started] is lowered: the wrapper stays armed. *)
Lemma cleanup_with_error_stays_armed (w : StreamWrapper.t) (e : PyError) :
  StreamWrapper._span_started w = true ->
  StreamWrapper._span_started (fst (StreamWrapper.cleanup w (Some e))) = true.
Proof. intros Hst. now destruct (cleanup_started w (Some e) Hst) as (_ & _ & _ & -> & _). Qed.

(** [__enter__] arms a wrapper again after it was finalized. *)
Lemma reentry_rearms_finalization :
  let w := run (Sample.wrapper [] 1) [OpNext; OpEnter; OpExit None] in
  end_count (StreamWrapper.span w) = 2
  /\ choice_event_count (StreamWrapper.event_logger w) = 2.
Proof. vm_compute. split; reflexivity. Qed.

(** [C1] Finalization is not exactly-once when an exception is in
    flight.  For every new wrapper, a [cleanup] with an exception leaves
    [_span_started] set, and the next trigger (here the scoped exit)
    finalizes again: the span is ended twice and every choice event is
    emitted twice.  So it is for the usual caller, who iterates inside a
    [with] block: the upstream failure finalizes in [__next__] and then
    again in [__exit__]. *)
Theorem finalization_repeats_after_failure :
  (forall stream n span lg e exc_val,
      let w0 := StreamWrapper.__init__ stream n span lg in
      let w1 := fst (StreamWrapper.cleanup w0 (Some e)) in
      let w2 := fst (StreamWrapper.__exit__ w1 exc_val) in
      StreamWrapper._span_started w1 = true
      /\ end_count (StreamWrapper.span w2) = end_count span + 2
      /\ choice_event_count (StreamWrapper.event_logger w2)
         = choice_event_count lg + 2 * Z.to_nat n)
  /\ (let w := run (Sample.wrapper [PRaise Sample.boom] 1)
                   [OpEnter; OpNext; OpExit (Some Sample.boom)] in
      end_count (StreamWrapper.span w) = 2
      /\ choice_event_count (StreamWrapper.event_logger w) = 2).
Proof.
  split.
  - intros stream n span lg e exc_val w0 w1 w2.
    assert (Hst0 : StreamWrapper._span_started w0 = true) by reflexivity.
    destruct (cleanup_started w0 (Some e) Hst0) as (Hc1 & He1 & _ & Hst1 & Hch1 & _).
    cbn zeta in Hc1, He1, Hst1, Hch1. fold w1 in Hc1, He1, Hst1, Hch1.
    destruct (cleanup_started w1 exc_val Hst1) as (Hc2 & He2 & _ & _ & _ & _).
    cbn zeta in Hc2, He2.
    change (fst (StreamWrapper.cleanup w1 exc_val)) with w2 in Hc2, He2.
    split; [exact Hst1 |]. split.
    + rewrite (end_count_app _ _ 1 (finalize_calls_one_end w1 exc_val) _ Hc2).
      rewrite (end_count_app _ _ 1 (finalize_calls_one_end w0 (Some e)) _ Hc1).
      change (StreamWrapper.span w0) with span. lia.
    + rewrite He2, He1, Hch1, !choice_event_count_app, !choice_events_count.
      change (StreamWrapper.event_logger w0) with lg.
      unfold w0. rewrite init_length. lia.
  - vm_compute. split; reflexivity.
Qed.

(** ** The interception layer on a recording span *)

Lemma emit_messages (msgs : list Message) :
  forall lg : EventLogger,
    fold_left (fun lg msg => emit (_message_to_event msg) lg) msgs lg
    = lg ++ map _message_to_event msgs.
Proof.
  induction msgs as [| m msgs IH]; intros lg; simpl.
  - now rewrite app_nil_r.
  - rewrite IH. unfold emit. now rewrite <- app_assoc.
Qed.

Lemma response_loop_spec (choices : list Choice) :
  forall frs (lg : EventLogger),
    response_loop choices frs lg
    = (frs ++ map (fun c => or_error (ch_finish_reason c)) choices,
       lg ++ map (fun c => Some (response_choice_event c)) choices).
Proof.
  induction choices as [| c choices IH]; intros frs lg; simpl.
  - now rewrite !app_nil_r.
  - rewrite IH. unfold emit. now rewrite <- !app_assoc.
Qed.

(** On a recording span [traced_method] first makes [request_calls] and
    emits [message_events], then dispatches on what the wrapped call does. *)
Lemma traced_method_recording (tracer : Tracer) (lg : EventLogger)
    (wrapped : Kwargs -> CallResult) (kwargs : Kwargs) :
  sampled tracer = true ->
  exists sp,
    calls sp = request_calls kwargs
    /\ recording sp = true
    /\ trace_id sp = new_trace_id tracer
    /\ span_id sp = new_span_id tracer
    /\ traced_method tracer lg wrapped kwargs
       = let lg' := lg ++ message_events kwargs in
         match wrapped kwargs with
         | Raises error => traced_except sp lg' error
         | Returns result =>
             if _is_streaming kwargs then
               match as_count (py_or (kw_n kwargs) (PyInt 1)) with
               | inr n =>
                   {| out_span := sp; out_events := lg';
                      out_result :=
                        ReturnWrapper (StreamWrapper.__init__ result n sp lg') |}
               | inl error => traced_except sp lg' error
               end
             else
               match result with
               | Stream _ =>
                   traced_except sp lg'
                     (AttributeError "'Stream' object has no attribute 'model'")
               | Completion r =>
                   {| out_span :=
                        span_end
                          (set_attribute GEN_AI_RESPONSE_FINISH_REASONS
                             (PyStrList (map (fun c => or_error (ch_finish_reason c))
                                           (response_choices r)))
                             (_set_response_attributes sp
                                (of_opt_str (cmpl_model r)) (of_opt_str (cmpl_id r))
                                (usage_field u_prompt_tokens (cmpl_usage r))
                                (usage_field u_completion_tokens (cmpl_usage r))));
                      out_events :=
                        lg' ++ map (fun c => Some (response_choice_event c))
                                 (response_choices r);
                      out_result := ReturnRaw result |}
               end
         end.
Proof.
  intros Hs. unfold traced_method.
  set (sp0 := start_span tracer _).
  assert (Hrec0 : is_recording sp0 = true) by exact Hs.
  rewrite Hrec0. rewrite emit_messages.
  set (sp := _set_span_attribute _ GEN_AI_REQUEST_FREQUENCY_PENALTY _).
  assert (Hfacts : calls sp = request_calls kwargs
                   /\ recording sp = true
                   /\ trace_id sp = new_trace_id tracer
                   /\ span_id sp = new_span_id tracer).
  { subst sp. unfold request_calls.
    repeat match goal with
           | |- context [_set_span_attribute ?s ?n ?v] =>
               rewrite (_set_span_attribute_calls s n v);
               destruct (_set_span_attribute_ids s n v) as (-> & -> & ->)
           end.
    cbn. rewrite <- !app_assoc. repeat split; assumption || reflexivity. }
  destruct Hfacts as (Hc & Hr & Ht & Hi).
  exists sp. repeat (split; [assumption |]).
  clearbody sp. cbv zeta. unfold is_recording. rewrite Hr. cbn [negb].
  destruct (wrapped kwargs) as [result | error]; [| reflexivity].
  destruct (_is_streaming kwargs); [reflexivity |].
  destruct result as [r | script]; [| reflexivity].
  unfold response_choices, message_events.
  destruct (cmpl_choices r) as [chs |]; cbn [default].
  - rewrite response_loop_spec. reflexivity.
  - cbn. now rewrite app_nil_r.
Qed.

Lemma request_calls_no_end (kwargs : Kwargs) :
  List.filter is_End (request_calls kwargs) = [].
Proof.
  unfold request_calls. cbn [app List.filter is_End].
  now rewrite !List.filter_app, !attr_call_no_end.
Qed.

Lemma response_calls_no_end (m i p c : PyValue) :
  List.filter is_End (response_calls m i p c) = [].
Proof.
  unfold response_calls. now rewrite !List.filter_app, !attr_call_no_end.
Qed.

(** [X1] A non-streaming call that returns on a recording span: the
    response goes back unchanged; the span's log is the request
    attributes, the response attributes that are not [None], the list of
    finish reasons (["error"] for a choice without one) and one [end];
    one choice event per returned choice follows the message events, in
    the order of the choices. *)
Theorem non_streaming_success_recorded
    (tracer : Tracer) (lg : EventLogger) (wrapped : Kwargs -> CallResult)
    (kwargs : Kwargs) (r : ChatCompletion) :
  sampled tracer = true ->
  _is_streaming kwargs = false ->
  wrapped kwargs = Returns (Completion r) ->
  let o := traced_method tracer lg wrapped kwargs in
  out_result o = ReturnRaw (Completion r)
  /\ calls (out_span o)
     = request_calls kwargs
       ++ response_calls (of_opt_str (cmpl_model r)) (of_opt_str (cmpl_id r))
            (usage_field u_prompt_tokens (cmpl_usage r))
            (usage_field u_completion_tokens (cmpl_usage r))
       ++ [SetAttribute GEN_AI_RESPONSE_FINISH_REASONS
             (PyStrList (map (fun c => or_error (ch_finish_reason c))
                           (response_choices r)));
           End]
  /\ end_count (out_span o) = 1
  /\ out_events o
     = lg ++ message_events kwargs
       ++ map (fun c => Some (response_choice_event c)) (response_choices r).
Proof.
  intros Hs Hns Hw.
  destruct (traced_method_recording tracer lg wrapped kwargs Hs)
    as (sp & Hc & Hr & _ & _ & ->).
  cbv zeta. rewrite Hw, Hns. cbn [out_result out_span out_events].
  assert (Hcalls :
    calls (span_end
             (set_attribute GEN_AI_RESPONSE_FINISH_REASONS
                (PyStrList (map (fun c => or_error (ch_finish_reason c))
                              (response_choices r)))
                (_set_response_attributes sp
                   (of_opt_str (cmpl_model r)) (of_opt_str (cmpl_id r))
                   (usage_field u_prompt_tokens (cmpl_usage r))
                   (usage_field u_completion_tokens (cmpl_usage r)))))
    = request_calls kwargs
      ++ response_calls (of_opt_str (cmpl_model r)) (of_opt_str (cmpl_id r))
           (usage_field u_prompt_tokens (cmpl_usage r))
           (usage_field u_completion_tokens (cmpl_usage r))
      ++ [SetAttribute GEN_AI_RESPONSE_FINISH_REASONS
            (PyStrList (map (fun c => or_error (ch_finish_reason c))
                          (response_choices r)));
          End]).
  { cbn [span_end set_attribute span_log calls].
    rewrite _set_response_attributes_calls. unfold is_recording.
    rewrite Hr, Hc. now rewrite <- !app_assoc. }
  split; [reflexivity |]. split; [exact Hcalls |]. split.
  - unfold end_count. rewrite Hcalls, !List.filter_app.
    now rewrite request_calls_no_end, response_calls_no_end.
  - now rewrite <- app_assoc.
Qed.

Lemma non_streaming_success_recorded_witness :
  let kwargs := Sample.kwargs PyNone (PyFloat 0) PyNone in
  let o := traced_method Sample.tracer_on [] (fun _ => Returns (Completion Sample.completion)) kwargs in
  out_result o = ReturnRaw (Completion Sample.completion)
  /\ calls (out_span o)
     = request_calls kwargs
       ++ response_calls (PyStr "gpt-4o-2024") (PyStr "chatcmpl-1") (PyInt 12) (PyInt 3)
       ++ [SetAttribute GEN_AI_RESPONSE_FINISH_REASONS (PyStrList ["stop"]); End]
  /\ end_count (out_span o) = 1
  /\ out_events o
     = [] ++ message_events kwargs
       ++ [Some (response_choice_event
                   {| ch_index := 0; ch_finish_reason := Some "stop";
                      ch_message := Some {| rm_content := Some "hello";
                                            rm_tool_calls := None |} |})].
Proof.
  intros kwargs.
  apply (non_streaming_success_recorded Sample.tracer_on []
           (fun _ => Returns (Completion Sample.completion)) kwargs Sample.completion);
    reflexivity.
Defined.

(** [X2] A wrapped call that raises: the same exception reaches the
    caller, the span's log ends with the error type, the error status
    and exactly one [end], and no choice event is emitted.  This holds
    whether the span records or not; only the request attributes and the
    message events depend on it. *)
Theorem wrapped_failure_recorded_once
    (tracer : Tracer) (lg : EventLogger) (wrapped : Kwargs -> CallResult)
    (kwargs : Kwargs) (e : PyError) :
  wrapped kwargs = Raises e ->
  let o := traced_method tracer lg wrapped kwargs in
  out_result o = Raised e
  /\ calls (out_span o)
     = (if sampled tracer then request_calls kwargs else []) ++ error_calls e
  /\ end_count (out_span o) = 1
  /\ out_events o = lg ++ (if sampled tracer then message_events kwargs else []).
Proof.
  intros Hw. destruct (sampled tracer) eqn:Hs.
  - destruct (traced_method_recording tracer lg wrapped kwargs Hs)
      as (sp & Hc & _ & _ & _ & ->).
    cbv zeta. rewrite Hw. unfold traced_except.
    destruct (_record_error_calls e sp) as [Hcalls Hraised].
    destruct (_record_error e sp) as [sp' raised].
    cbn [fst snd] in Hcalls, Hraised. subst raised.
    cbn [out_result out_span out_events].
    split; [reflexivity |]. split; [now rewrite Hcalls, Hc |].
    split; [| reflexivity].
    unfold end_count. rewrite Hcalls, Hc, List.filter_app, request_calls_no_end.
    reflexivity.
  - unfold traced_method, is_recording, start_span. cbn. rewrite Hs, Hw. cbn.
    rewrite app_nil_r. repeat split.
Qed.

Lemma wrapped_failure_recorded_once_witness :
  let kwargs := Sample.kwargs (PyBool true) PyNone PyNone in
  let o := traced_method Sample.tracer_on [] (fun _ => Raises Sample.boom) kwargs in
  out_result o = Raised Sample.boom
  /\ calls (out_span o) = request_calls kwargs ++ error_calls Sample.boom
  /\ end_count (out_span o) = 1
  /\ out_events o = [] ++ message_events kwargs.
Proof.
  intros kwargs.
  apply (wrapped_failure_recorded_once Sample.tracer_on []
           (fun _ => Raises Sample.boom) kwargs Sample.boom).
  reflexivity.
Defined.

Lemma attribute_names_app (l l' : list SpanCall) :
  attribute_names (l ++ l') = attribute_names l ++ attribute_names l'.
Proof. unfold attribute_names. apply omap_app. Qed.

Lemma attribute_names_attr_call (name : string) (v : PyValue) (x : string) :
  In x (attribute_names (attr_call name v)) -> x = name.
Proof.
  unfold attr_call. destruct (is_not_None v); cbn; [| tauto].
  intros [H | []]. now symmetry.
Qed.

(** The span's log after a non-streaming call that returned. *)
Lemma non_streaming_calls
    (tracer : Tracer) (lg : EventLogger) (wrapped : Kwargs -> CallResult)
    (kwargs : Kwargs) (r : ChatCompletion) :
  sampled tracer = true ->
  _is_streaming kwargs = false ->
  wrapped kwargs = Returns (Completion r) ->
  calls (out_span (traced_method tracer lg wrapped kwargs))
  = request_calls kwargs
    ++ response_calls (of_opt_str (cmpl_model r)) (of_opt_str (cmpl_id r))
         (usage_field u_prompt_tokens (cmpl_usage r))
         (usage_field u_completion_tokens (cmpl_usage r))
    ++ [SetAttribute GEN_AI_RESPONSE_FINISH_REASONS
          (PyStrList (map (fun c => or_error (ch_finish_reason c))
                        (response_choices r)));
        End].
Proof.
  intros Hs Hns Hw.
  destruct (traced_method_recording tracer lg wrapped kwargs Hs)
    as (sp & Hc & Hr & _ & _ & ->).
  cbv zeta. rewrite Hw, Hns.
  cbn [out_span span_end set_attribute span_log calls].
  rewrite _set_response_attributes_calls. unfold is_recording.
  rewrite Hr, Hc. now rewrite <- !app_assoc.
Qed.

(** [X3] In the non-streaming branch the usage attributes follow the
    response: [gen_ai.usage.input_tokens] and
    [gen_ai.usage.output_tokens] are set on the span exactly when the
    response carries usage data. *)
Theorem non_streaming_usage_attributes
    (tracer : Tracer) (lg : EventLogger) (wrapped : Kwargs -> CallResult)
    (kwargs : Kwargs) (r : ChatCompletion) :
  sampled tracer = true ->
  _is_streaming kwargs = false ->
  wrapped kwargs = Returns (Completion r) ->
  let names :=
    attribute_names (calls (out_span (traced_method tracer lg wrapped kwargs))) in
  (In GEN_AI_USAGE_INPUT_TOKENS names <-> cmpl_usage r <> None)
  /\ (In GEN_AI_USAGE_OUTPUT_TOKENS names <-> cmpl_usage r <> None).
Proof.
  intros Hs Hns Hw names. subst names.
  rewrite (non_streaming_calls tracer lg wrapped kwargs r Hs Hns Hw).
  unfold request_calls, response_calls.
  rewrite !attribute_names_app.
  destruct (cmpl_usage r) as [u |]; cbn [usage_field].
  - split; (split; [congruence | intros _]);
      rewrite !in_app_iff; cbn; tauto.
  - split; (split; [| congruence]); intros H; exfalso;
      rewrite !in_app_iff in H; cbn in H;
      repeat match type of H with
             | _ \/ _ => destruct H as [H | H]
             | In _ (attribute_names (attr_call _ _)) =>
                 apply attribute_names_attr_call in H
             | False => contradiction
             end;
      discriminate H.
Qed.

Lemma non_streaming_usage_attributes_witness :
  let names :=
    attribute_names
      (calls (out_span
         (traced_method Sample.tracer_on []
            (fun _ => Returns (Completion Sample.completion))
            (Sample.kwargs PyNone PyNone PyNone)))) in
  (In GEN_AI_USAGE_INPUT_TOKENS names <-> cmpl_usage Sample.completion <> None)
  /\ (In GEN_AI_USAGE_OUTPUT_TOKENS names <-> cmpl_usage Sample.completion <> None).
Proof.
  apply (non_streaming_usage_attributes Sample.tracer_on []
           (fun _ => Returns (Completion Sample.completion))
           (Sample.kwargs PyNone PyNone PyNone) Sample.completion);
    reflexivity.
Defined.

(** [X4] On a recording span, whatever the wrapped call does, the event
    logger first receives one entry per input message, in message order;
    all that can follow are [gen_ai.choice] events. *)
Theorem message_events_come_first
    (tracer : Tracer) (lg : EventLogger) (wrapped : Kwargs -> CallResult)
    (kwargs : Kwargs) :
  sampled tracer = true ->
  exists rest,
    out_events (traced_method tracer lg wrapped kwargs)
    = lg ++ map _message_to_event (kw_messages kwargs) ++ rest
    /\ Forall (fun e => is_choice_event e = true) rest.
Proof.
  intros Hs.
  destruct (traced_method_recording tracer lg wrapped kwargs Hs)
    as (sp & _ & _ & _ & _ & ->).
  cbv zeta. fold (message_events kwargs).
  assert (Hnil : forall l : EventLogger, l = l ++ []) by (intros; now rewrite app_nil_r).
  destruct (wrapped kwargs) as [result | error].
  - destruct (_is_streaming kwargs).
    + destruct (as_count _).
      * exists []. unfold traced_except. destruct (_record_error _ _).
        cbn [out_events]. rewrite app_nil_r. now split.
      * exists []. cbn [out_events]. rewrite app_nil_r. now split.
    + destruct result as [r | script].
      * exists (map (fun c => Some (response_choice_event c)) (response_choices r)).
        cbn [out_events]. split; [now rewrite <- app_assoc |].
        induction (response_choices r); constructor; auto.
      * exists []. unfold traced_except. destruct (_record_error _ _).
        cbn [out_events]. rewrite app_nil_r. now split.
  - exists []. unfold traced_except. destruct (_record_error _ _).
    cbn [out_events]. rewrite app_nil_r. now split.
Qed.

Lemma message_events_come_first_witness :
  let kwargs := Sample.kwargs PyNone PyNone PyNone in
  exists rest,
    out_events (traced_method Sample.tracer_on []
                  (fun _ => Returns (Completion Sample.completion)) kwargs)
    = [] ++ map _message_to_event (kw_messages kwargs) ++ rest
    /\ Forall (fun e => is_choice_event e = true) rest.
Proof.
  intros kwargs.
  apply (message_events_come_first Sample.tracer_on []
           (fun _ => Returns (Completion Sample.completion)) kwargs).
  reflexivity.
Defined.

(** [X5] A streaming call that returns on a recording span hands back a
    wrapper and leaves the span open: the span has only the request
    attributes and no [end], the wrapper holds that span, that logger and
    the raw stream, it is armed, and it has one empty buffer per requested
    choice, the buffer at position [i] carrying index [i].  A missing,
    null, sentinel or zero [n] counts as one choice. *)
Theorem streaming_call_returns_open_wrapper
    (tracer : Tracer) (lg : EventLogger) (wrapped : Kwargs -> CallResult)
    (kwargs : Kwargs) (result : RawResult) (n : Z) :
  sampled tracer = true ->
  _is_streaming kwargs = true ->
  wrapped kwargs = Returns result ->
  as_count (py_or (kw_n kwargs) (PyInt 1)) = inr n ->
  let o := traced_method tracer lg wrapped kwargs in
  exists w,
    out_result o = ReturnWrapper w
    /\ StreamWrapper.stream w = result
    /\ StreamWrapper.span w = out_span o
    /\ StreamWrapper.event_logger w = out_events o
    /\ StreamWrapper._span_started w = true
    /\ calls (out_span o) = request_calls kwargs
    /\ end_count (out_span o) = 0
    /\ out_events o = lg ++ map _message_to_event (kw_messages kwargs)
    /\ length (StreamWrapper.choices w) = Z.to_nat n
    /\ (forall i, i < Z.to_nat n ->
          StreamWrapper.choices w !! i = Some (ChoiceBuffer.__init__ (Z.of_nat i)))
    /\ (py_bool (kw_n kwargs) = false -> n = 1%Z).
Proof.
  intros Hs Hst Hw Hn.
  destruct (traced_method_recording tracer lg wrapped kwargs Hs)
    as (sp & Hc & _ & _ & _ & ->).
  cbv zeta. rewrite Hw, Hst, Hn. fold (message_events kwargs).
  eexists. split; [reflexivity |]. cbn [out_span out_events].
  repeat (split; [reflexivity |]).
  split; [exact Hc |]. split.
  { unfold end_count. now rewrite Hc, request_calls_no_end. }
  split; [reflexivity |]. split; [apply init_length |]. split.
  - intros i Hi. now apply init_lookup.
  - intros Hfalsy. unfold py_or in Hn. rewrite Hfalsy in Hn. cbn in Hn. congruence.
Qed.

Lemma streaming_call_returns_open_wrapper_witness :
  let kwargs := Sample.kwargs (PyBool true) PyNone PyNotGiven in
  let o := traced_method Sample.tracer_on [] (fun _ => Returns (Stream [])) kwargs in
  exists w,
    out_result o = ReturnWrapper w
    /\ StreamWrapper.stream w = Stream []
    /\ StreamWrapper.span w = out_span o
    /\ StreamWrapper.event_logger w = out_events o
    /\ StreamWrapper._span_started w = true
    /\ calls (out_span o) = request_calls kwargs
    /\ end_count (out_span o) = 0
    /\ out_events o = [] ++ map _message_to_event (kw_messages kwargs)
    /\ length (StreamWrapper.choices w) = Z.to_nat 1
    /\ (forall i, i < Z.to_nat 1 ->
          StreamWrapper.choices w !! i = Some (ChoiceBuffer.__init__ (Z.of_nat i)))
    /\ (py_bool (kw_n kwargs) = false -> 1%Z = 1%Z).
Proof.
  intros kwargs.
  apply (streaming_call_returns_open_wrapper Sample.tracer_on []
           (fun _ => Returns (Stream [])) kwargs (Stream []) 1);
    reflexivity.
Defined.

(** ** Request messages and response messages *)

(** [X6] [_message_to_event] knows four roles.  For [user], [system],
    [assistant] and [tool] it builds the event named
    [gen_ai.<role>.message], without trace or span id; for any other
    role, or none, it falls off its end and what is emitted is [None]. *)
Theorem message_event_follows_role (m : Message) :
  match _message_to_event m with
  | Some ev =>
      exists role,
        msg_role m = Some role
        /\ In role ["user"; "system"; "assistant"; "tool"]
        /\ ev_name ev = "gen_ai." +:+ role +:+ ".message"
        /\ ev_trace_id ev = None /\ ev_span_id ev = None
  | None =>
      ~ In (msg_role m) [Some "user"; Some "system"; Some "assistant"; Some "tool"]
  end.
Proof.
  unfold _message_to_event.
  destruct (bool_decide_reflect (msg_role m = Some "user")) as [E | N1].
  { exists "user". cbn. tauto. }
  destruct (bool_decide_reflect (msg_role m = Some "system")) as [E | N2].
  { exists "system". cbn. tauto. }
  destruct (bool_decide_reflect (msg_role m = Some "assistant")) as [E | N3].
  { destruct (msg_tool_calls m) as [[| tc tcs] |];
      exists "assistant"; cbn; tauto. }
  destruct (bool_decide_reflect (msg_role m = Some "tool")) as [E | N4].
  { exists "tool". cbn. tauto. }
  cbn. intros [H | [H | [H | [H | []]]]]; congruence.
Qed.

(** [X7] The body of an assistant message.  Without tool calls (none,
    or an empty list) the body is the content alone, null included.
    With tool calls the body lists them all, in order, and has a
    [content] key only when the content is a non-empty string. *)
Theorem assistant_message_body (m : Message) :
  msg_role m = Some "assistant" ->
  exists ev,
    _message_to_event m = Some ev
    /\ ev_name ev = "gen_ai.assistant.message"
    /\ match msg_tool_calls m with
       | None | Some [] =>
           ev_body ev = JObj [("content", json_opt_str (msg_content m))]
       | Some tool_calls =>
           json_field "tool_calls" (ev_body ev)
           = Some (JList (map tool_call_json tool_calls))
           /\ json_field "content" (ev_body ev)
              = match msg_content m with
                | Some c => if String.eqb c "" then None else Some (JStr c)
                | None => None
                end
       end.
Proof.
  intros Hrole. unfold _message_to_event. rewrite Hrole. cbn.
  destruct (msg_tool_calls m) as [[| tc tcs] |].
  - eexists. repeat split.
  - destruct (msg_content m) as [c |]; [destruct (String.eqb c "") |];
      eexists; repeat split.
  - eexists. repeat split.
Qed.

Lemma assistant_message_body_witness :
  let m := {| msg_role := Some "assistant"; msg_content := Some "";
              msg_tool_calls := Some [Sample.tool_call];
              msg_tool_call_id := None |} in
  exists ev,
    _message_to_event m = Some ev
    /\ ev_name ev = "gen_ai.assistant.message"
    /\ json_field "tool_calls" (ev_body ev)
       = Some (JList (map tool_call_json [Sample.tool_call]))
    /\ json_field "content" (ev_body ev) = None.
Proof.
  intros m. apply (assistant_message_body m). reflexivity.
Defined.

(** [X8] [_is_streaming] is the truth value of [stream]: the sentinel
    test adds nothing, [NOT_GIVEN] being falsy already.  A missing,
    null, sentinel, false, zero or empty [stream] is not streaming. *)
Theorem is_streaming_is_truthiness (kwargs : Kwargs) :
  _is_streaming kwargs = py_bool (kw_stream kwargs)
  /\ (In (kw_stream kwargs)
        [PyNone; PyNotGiven; PyBool false; PyInt 0; PyStr ""; PyStrList []]
      -> _is_streaming kwargs = false).
Proof.
  unfold _is_streaming. split.
  - destruct (kw_stream kwargs); cbn; auto using andb_true_r.
  - intros H. cbn in H.
    repeat (destruct H as [<- | H]; [reflexivity |]). contradiction.
Qed.

(** [X9] [_choice_to_message] copies what the choice's message has:
    a [content] key exactly when the content is not null, a [tool_calls]
    key exactly when the tool calls are not null (an empty list is kept
    as an empty list); a choice without message gives an empty body. *)
Theorem choice_message_keys (choice : Choice) :
  json_field "content" (_choice_to_message choice)
  = JStr <$> (ch_message choice ≫= rm_content)
  /\ json_field "tool_calls" (_choice_to_message choice)
     = (fun tcs => JList (map tool_call_json tcs))
       <$> (ch_message choice ≫= rm_tool_calls)
  /\ (ch_message choice = None -> _choice_to_message choice = JObj []).
Proof.
  unfold _choice_to_message.
  destruct (ch_message choice) as [[[c |] [tcs |]] |]; cbn; repeat split; congruence.
Qed.

(** ** Indices the buffers do not have, and indices counted from the end *)

Lemma append_loop_out_of_range (cs : list (option ChunkChoice)) :
  forall bufs,
    Exists (out_of_range (length bufs)) (omap id cs) ->
    snd (StreamWrapper.append_loop bufs cs) = Some IndexError.
Proof.
  induction cs as [| [d |] cs IH]; intros bufs Hex; cbn in Hex.
  - inversion Hex.
  - cbn [StreamWrapper.append_loop].
    destruct (py_index (length bufs) (cc_index d)) as [i |] eqn:Hi; [| reflexivity].
    apply IH. rewrite length_alter.
    inversion Hex as [? ? Hd | ? ? Hrest]; subst; [| exact Hrest].
    unfold out_of_range in Hd. congruence.
  - cbn [StreamWrapper.append_loop]. now apply IH.
Qed.

Lemma py_index_from_end (n : nat) (i : Z) :
  (- Z.of_nat n <= i < 0)%Z ->
  py_index n i = Some (Z.to_nat (Z.of_nat n + i)).
Proof.
  intros [H0 H1]. unfold py_index.
  destruct (Z.leb_spec 0 i); [lia |]. cbn [andb].
  destruct (Z.leb_spec (- Z.of_nat n) i); [| lia].
  destruct (Z.ltb_spec i 0); [reflexivity | lia].
Qed.

(** [X10] A chunk with a delta whose index the buffers do not have (it
    is neither in [0 .. N-1] nor in [-N .. -1]) is not handed to the
    caller: [__next__] raises [IndexError], and an open wrapper
    finalizes with that error, the span's log ending with the error
    type [IndexError], the error status and [end]. *)
Theorem chunk_with_unknown_index_raises
    (w : StreamWrapper.t) (c : Chunk) (rest : list Pull) :
  StreamWrapper.stream w = Stream (PChunk c :: rest) ->
  StreamWrapper._span_started w = true ->
  Exists (out_of_range (length (StreamWrapper.choices w))) (chunk_deltas c) ->
  exists w' pre,
    StreamWrapper.__next__ w = (w', StreamWrapper.Raise IndexError)
    /\ calls (StreamWrapper.span w')
       = calls (StreamWrapper.span w) ++ pre ++ error_calls IndexError
    /\ StreamWrapper.stream w' = Stream rest.
Proof.
  intros Hs Hst Hex.
  unfold StreamWrapper.__next__. rewrite Hs. cbn [next_raw].
  rewrite process_chunk_set_stream.
  destruct (process_chunk_choices w c) as [_ Hsnd]. rewrite Hsnd.
  unfold chunk_deltas in Hex.
  destruct (chunk_choices c) as [cs |]; [| inversion Hex].
  rewrite (append_loop_out_of_range cs _ Hex).
  unfold StreamWrapper.except_Exception.
  set (w2 := StreamWrapper.set_stream (Stream rest)
               (fst (StreamWrapper.process_chunk w c))).
  destruct (process_chunk_frame w c) as (_ & Hsp & _ & Hst1 & _).
  cbn zeta in Hsp, Hst1.
  assert (Hst2 : StreamWrapper._span_started w2 = true)
    by (change (StreamWrapper._span_started
                  (fst (StreamWrapper.process_chunk w c)) = true); congruence).
  destruct (cleanup_started w2 (Some IndexError) Hst2)
    as (Hc & _ & Hr & _ & _ & Hstream).
  cbn zeta in Hc, Hstream.
  destruct (StreamWrapper.cleanup w2 (Some IndexError)) as [w3 r3].
  cbn [fst snd] in Hc, Hr, Hstream. subst r3.
  exists w3. eexists. split; [reflexivity |]. split; [| exact Hstream].
  rewrite Hc.
  change (StreamWrapper.span w2)
    with (StreamWrapper.span (fst (StreamWrapper.process_chunk w c))).
  rewrite Hsp. unfold finalize_calls.
  rewrite (app_assoc _ [SetAttribute GEN_AI_RESPONSE_FINISH_REASONS _]).
  reflexivity.
Qed.

Lemma chunk_with_unknown_index_raises_witness :
  let c := Sample.chunk (Some "r1") None [Sample.delta 2 (Some "x") None] in
  let w := Sample.wrapper [PChunk c] 2 in
  exists w' pre,
    StreamWrapper.__next__ w = (w', StreamWrapper.Raise IndexError)
    /\ calls (StreamWrapper.span w')
       = calls (StreamWrapper.span w) ++ pre ++ error_calls IndexError
    /\ StreamWrapper.stream w' = Stream [].
Proof.
  intros c w. apply (chunk_with_unknown_index_raises w c []).
  - reflexivity.
  - reflexivity.
  - apply Exists_cons_hd. reflexivity.
Defined.

(** [X11] A delta whose index is negative but not below [-N] is taken
    by Python's list indexing from the end: a chunk carrying only that
    delta raises nothing and the delta is appended to the buffer at
    position [N + index]; the other buffers are as before. *)
Theorem negative_index_counts_from_end
    (w : StreamWrapper.t) (c : Chunk) (d : ChunkChoice) :
  chunk_choices c = Some [Some d] ->
  (- Z.of_nat (length (StreamWrapper.choices w)) <= cc_index d < 0)%Z ->
  snd (StreamWrapper.process_chunk w c) = None
  /\ StreamWrapper.choices (fst (StreamWrapper.process_chunk w c))
     = alter (fun b => ChoiceBuffer.append b d)
         (Z.to_nat (Z.of_nat (length (StreamWrapper.choices w)) + cc_index d))
         (StreamWrapper.choices w).
Proof.
  intros Hc Hneg.
  destruct (process_chunk_choices w c) as [-> ->]. rewrite Hc.
  cbn [StreamWrapper.append_loop].
  rewrite (py_index_from_end _ _ Hneg). cbn. auto.
Qed.

Lemma negative_index_counts_from_end_witness :
  let d := {| cc_index := -1; cc_finish_reason := None;
              cc_delta := Some {| delta_content := Some "z" |} |} in
  let c := Sample.chunk None None [Some d] in
  let w := Sample.wrapper [] 2 in
  snd (StreamWrapper.process_chunk w c) = None
  /\ StreamWrapper.choices (fst (StreamWrapper.process_chunk w c))
     = alter (fun b => ChoiceBuffer.append b d) 1 (StreamWrapper.choices w).
Proof.
  intros d c w. apply (negative_index_counts_from_end w c d).
  - reflexivity.
  - simpl. lia.
Defined.

(** ** What finalization reports *)

Lemma appends_finish_reason (ds : list ChunkChoice) :
  forall b,
    ChoiceBuffer.finish_reason (fold_left ChoiceBuffer.append ds b)
    = last_some (ChoiceBuffer.finish_reason b)
        (map (fun d => Some <$> cc_finish_reason d) ds).
Proof.
  unfold last_some. induction ds as [| d ds IH]; intros b; cbn [fold_left map].
  - reflexivity.
  - rewrite IH, append_finish_reason. now destruct (cc_finish_reason d).
Qed.

(** [X12] The finish reason of a choice is last-write-wins, and that is
    what the span reports.  After a new wrapper for [n] choices has been
    iterated to exhaustion over well-formed chunks, the last attribute
    set on the span is the list of finish reasons: it has [n] entries,
    and entry [i] is the last non-null finish reason the chunks carried
    for index [i] (["error"] if there is none, or if it is empty). *)
Theorem finish_reasons_report_last_reason
    (n : Z) (span : Span) (lg : EventLogger) (cs : list Chunk) (i fuel : nat) :
  i < Z.to_nat n ->
  Forall (well_formed (Z.to_nat n)) cs ->
  length cs < fuel ->
  exists w' frs pre,
    iterate fuel (StreamWrapper.__init__ (Stream (map PChunk cs)) n span lg) []
    = Some (w', cs, None)
    /\ calls (StreamWrapper.span w')
       = calls span ++ pre
         ++ [SetAttribute GEN_AI_RESPONSE_FINISH_REASONS (PyStrList frs); End]
    /\ length frs = Z.to_nat n
    /\ frs !! i = Some (or_error (last_reason (deltas_for (Z.of_nat i) cs))).
Proof.
  intros Hi Hwf Hfuel.
  destruct (iterate_new_wrapper n span lg cs i fuel Hi Hwf Hfuel)
    as (w' & Hit & Hb & Hlen & Hch & Hcalls & _).
  exists w', (finish_reasons_of (StreamWrapper.choices w')).
  eexists. split; [exact Hit |]. split; [| split].
  - rewrite Hcalls. unfold finalize_calls. rewrite <- Hch. reflexivity.
  - unfold finish_reasons_of. now rewrite length_map.
  - unfold finish_reasons_of.
    change (map ?f ?l) with (f <$> l). rewrite list_lookup_fmap, Hb.
    cbn [fmap option_fmap option_map]. now rewrite appends_finish_reason.
Qed.

Lemma finish_reasons_report_last_reason_witness :
  let cs := [Sample.chunk None None [Sample.delta 0 (Some "A") (Some "length")];
             Sample.chunk None None [Sample.delta 0 None (Some "stop")]] in
  let span := start_span Sample.tracer_on "chat gpt-4o" in
  exists w' frs pre,
    iterate 3 (StreamWrapper.__init__ (Stream (map PChunk cs)) 1 span []) []
    = Some (w', cs, None)
    /\ calls (StreamWrapper.span w')
       = calls span ++ pre
         ++ [SetAttribute GEN_AI_RESPONSE_FINISH_REASONS (PyStrList frs); End]
    /\ length frs = Z.to_nat 1
    /\ frs !! 0 = Some "stop".
Proof.
  intros cs span.
  apply (finish_reasons_report_last_reason 1 span [] cs 0 3).
  - simpl. lia.
  - unfold well_formed, delta_ok. simpl. repeat constructor; simpl; lia.
  - simpl. lia.
Defined.

(** [X13] The choice event of a choice reports its buffer.  After a new
    wrapper has been iterated to exhaustion over well-formed chunks, the
    [i]-th event added to the logger is a [gen_ai.choice] event tagged
    with the span's trace id and span id, whose body holds the index
    [i], the last non-null finish reason for [i] (null if none) and, as
    message content, the accumulated text of choice [i]. *)
Theorem choice_event_reports_buffer
    (n : Z) (span : Span) (lg : EventLogger) (cs : list Chunk) (i fuel : nat) :
  i < Z.to_nat n ->
  Forall (well_formed (Z.to_nat n)) cs ->
  length cs < fuel ->
  exists w' ev,
    iterate fuel (StreamWrapper.__init__ (Stream (map PChunk cs)) n span lg) []
    = Some (w', cs, None)
    /\ length (StreamWrapper.event_logger w') = length lg + Z.to_nat n
    /\ StreamWrapper.event_logger w' !! (length lg + i) = Some (Some ev)
    /\ ev_name ev = "gen_ai.choice"
    /\ ev_trace_id ev = Some (trace_id span)
    /\ ev_span_id ev = Some (span_id span)
    /\ ev_body ev
       = JsonBody
           [("index", JInt (Z.of_nat i));
            ("finish_reason",
             json_opt_str (last_reason (deltas_for (Z.of_nat i) cs)));
            ("message",
             JObj [("content", JStr (concat_text (deltas_for (Z.of_nat i) cs)))])].
Proof.
  intros Hi Hwf Hfuel.
  destruct (iterate_new_wrapper n span lg cs i fuel Hi Hwf Hfuel)
    as (w' & Hit & Hb & Hlen & _ & _ & Hev).
  set (b := fold_left ChoiceBuffer.append (deltas_for (Z.of_nat i) cs)
              (ChoiceBuffer.__init__ (Z.of_nat i))) in *.
  exists w', (StreamWrapper.choice_event span b).
  split; [exact Hit |]. split; [| split].
  - rewrite Hev, length_app. unfold choice_events. now rewrite length_map, Hlen.
  - rewrite Hev, lookup_app_r by lia.
    replace (length lg + i - length lg) with i by lia.
    unfold choice_events.
    change (map ?f ?l) with (f <$> l). now rewrite list_lookup_fmap, Hb.
  - unfold StreamWrapper.choice_event. cbn [ev_name ev_trace_id ev_span_id ev_body].
    repeat (split; [reflexivity |]).
    unfold b. rewrite appends_index, appends_finish_reason, appends_content.
    reflexivity.
Qed.

Lemma choice_event_reports_buffer_witness :
  let cs := [Sample.chunk None None [Sample.delta 0 (Some "Hel") None];
             Sample.chunk None None [Sample.delta 0 (Some "lo") (Some "stop")]] in
  let span := start_span Sample.tracer_on "chat gpt-4o" in
  exists w' ev,
    iterate 3 (StreamWrapper.__init__ (Stream (map PChunk cs)) 1 span []) []
    = Some (w', cs, None)
    /\ length (StreamWrapper.event_logger w') = 0 + Z.to_nat 1
    /\ StreamWrapper.event_logger w' !! 0 = Some (Some ev)
    /\ ev_name ev = "gen_ai.choice"
    /\ ev_trace_id ev = Some 7%Z
    /\ ev_span_id ev = Some 11%Z
    /\ ev_body ev
       = JsonBody [("index", JInt 0); ("finish_reason", JStr "stop");
                   ("message", JObj [("content", JStr "Hello")])].
Proof.
  intros cs span.
  apply (choice_event_reports_buffer 1 span [] cs 0 3).
  - simpl. lia.
  - unfold well_formed, delta_ok. simpl. repeat constructor; simpl; lia.
  - simpl. lia.
Defined.

(** ** Sequences of caller operations *)

Lemma run_app (w : StreamWrapper.t) (ops ops' : list Op) :
  run w (ops ++ ops') = run (run w ops) ops'.
Proof. unfold run. apply fold_left_app. Qed.

(** Pulling once per chunk on a script that starts with well-formed
    chunks reaches the state [feed] describes. *)
Lemma run_pulls (cs : list Chunk) :
  forall w rest,
    StreamWrapper.stream w = Stream (map PChunk cs ++ rest) ->
    Forall (well_formed (length (StreamWrapper.choices w))) cs ->
    run w (repeat OpNext (length cs))
    = StreamWrapper.set_stream (Stream rest) (feed w cs).
Proof.
  induction cs as [| c cs IH]; intros w rest Hs Hwf.
  - cbn. now rewrite (set_stream_same w).
  - inversion Hwf as [| ? ? Hc Hrest]; subst.
    cbn [length repeat run fold_left step].
    rewrite (next_chunk w c (map PChunk cs ++ rest) Hs Hc). cbn [fst].
    fold (run (StreamWrapper.set_stream (Stream (map PChunk cs ++ rest))
                 (fst (StreamWrapper.process_chunk w c)))
              (repeat OpNext (length cs))).
    rewrite (IH _ rest).
    + now rewrite feed_set_stream, set_stream_twice.
    + reflexivity.
    + cbn. destruct (process_chunk_frame w c) as (_ & _ & _ & _ & _ & ->).
      exact Hrest.
Qed.

(** On a wrapper that is not armed, any operation but [__enter__] leaves
    the span and the logger alone and does not arm it. *)
Lemma step_not_started (w : StreamWrapper.t) (op : Op) :
  StreamWrapper._span_started w = false ->
  op <> OpEnter ->
  StreamWrapper.span (step w op) = StreamWrapper.span w
  /\ StreamWrapper.event_logger (step w op) = StreamWrapper.event_logger w
  /\ StreamWrapper._span_started (step w op) = false.
Proof.
  intros Hst Hop. destruct op as [| | exc_val]; [| congruence |].
  - cbn [step]. unfold StreamWrapper.__next__.
    destruct (next_raw (StreamWrapper.stream w)) as [pulled s].
    set (w1 := StreamWrapper.set_stream s w).
    assert (Hst1 : StreamWrapper._span_started w1 = false) by exact Hst.
    destruct pulled as [c | | e].
    + destruct (process_chunk_frame w1 c) as (_ & Hsp & Hlg & Hst2 & _).
      cbn zeta in Hsp, Hlg, Hst2.
      change (StreamWrapper.span w1) with (StreamWrapper.span w) in Hsp.
      change (StreamWrapper.event_logger w1)
        with (StreamWrapper.event_logger w) in Hlg.
      rewrite Hst1 in Hst2.
      destruct (StreamWrapper.process_chunk w1 c) as [w2 [e |]];
        cbn [fst] in Hsp, Hlg, Hst2.
      * unfold StreamWrapper.except_Exception.
        rewrite cleanup_not_started by assumption.
        cbn [fst]. auto.
      * cbn [fst]. auto.
    + rewrite cleanup_not_started by assumption. cbn [fst]. auto.
    + unfold StreamWrapper.except_Exception.
      rewrite cleanup_not_started by assumption. cbn [fst]. auto.
  - cbn [step]. unfold StreamWrapper.__exit__.
    rewrite cleanup_not_started by assumption. cbn [fst]. auto.
Qed.

(** [X14] Once a wrapper is disarmed (as a finalization without
    exception leaves it), no sequence of pulls and scoped exits, with or
    without exception, whatever the upstream still produces, makes any
    further call on the span or emits any further event; only
    [__enter__] can arm it again. *)
Theorem disarmed_wrapper_is_silent (ops : list Op) :
  forall w,
    StreamWrapper._span_started w = false ->
    Forall (fun op => op <> OpEnter) ops ->
    StreamWrapper.span (run w ops) = StreamWrapper.span w
    /\ StreamWrapper.event_logger (run w ops) = StreamWrapper.event_logger w
    /\ StreamWrapper._span_started (run w ops) = false.
Proof.
  induction ops as [| op ops IH]; intros w Hst Hops.
  - cbn. auto.
  - inversion Hops as [| ? ? Hop Hrest]; subst.
    destruct (step_not_started w op Hst Hop) as (Hsp & Hlg & Hst').
    change (run w (op :: ops)) with (run (step w op) ops).
    destruct (IH (step w op) Hst' Hrest) as (-> & -> & ->). auto.
Qed.

Lemma disarmed_wrapper_is_silent_witness :
  let c := Sample.chunk (Some "r2") None [Sample.delta 0 (Some "late") (Some "stop")] in
  let w := fst (StreamWrapper.__exit__ (Sample.wrapper [PChunk c; PRaise Sample.boom] 1) None) in
  let ops := [OpNext; OpNext; OpExit (Some Sample.boom); OpNext; OpExit None] in
  StreamWrapper.span (run w ops) = StreamWrapper.span w
  /\ StreamWrapper.event_logger (run w ops) = StreamWrapper.event_logger w
  /\ StreamWrapper._span_started (run w ops) = false.
Proof.
  intros c w ops. apply (disarmed_wrapper_is_silent ops w).
  - reflexivity.
  - repeat constructor; discriminate.
Defined.

(** [X15] While chunks flow nothing is reported: pulling any number of
    well-formed chunks makes no call on the span, emits no event and
    leaves [_span_started] as it was. *)
Theorem pulls_report_nothing
    (w : StreamWrapper.t) (cs : list Chunk) (rest : list Pull) :
  StreamWrapper.stream w = Stream (map PChunk cs ++ rest) ->
  Forall (well_formed (length (StreamWrapper.choices w))) cs ->
  let w' := run w (repeat OpNext (length cs)) in
  StreamWrapper.span w' = StreamWrapper.span w
  /\ StreamWrapper.event_logger w' = StreamWrapper.event_logger w
  /\ StreamWrapper._span_started w' = StreamWrapper._span_started w
  /\ StreamWrapper.stream w' = Stream rest.
Proof.
  intros Hs Hwf. cbv zeta. rewrite (run_pulls cs w rest Hs Hwf).
  destruct (feed_frame cs w) as (Hsp & Hlg & Hst & _).
  repeat split; assumption.
Qed.

Lemma pulls_report_nothing_witness :
  let cs := [Sample.chunk (Some "r1") None [Sample.delta 0 (Some "A") None];
             Sample.chunk None None [Sample.delta 0 (Some "B") (Some "stop")]] in
  let w := Sample.wrapper (map PChunk cs ++ [PRaise Sample.boom]) 1 in
  let w' := run w (repeat OpNext (length cs)) in
  StreamWrapper.span w' = StreamWrapper.span w
  /\ StreamWrapper.event_logger w' = StreamWrapper.event_logger w
  /\ StreamWrapper._span_started w' = StreamWrapper._span_started w
  /\ StreamWrapper.stream w' = Stream [PRaise Sample.boom].
Proof.
  intros cs w.
  apply (pulls_report_nothing w cs [PRaise Sample.boom]).
  - reflexivity.
  - unfold well_formed, delta_ok. simpl. repeat constructor; simpl; lia.
Defined.

(** [X16] Scoped use without exception finalizes exactly once, also
    when the caller abandons the stream early.  A new wrapper that is
    entered, pulled for some well-formed chunks and exited without
    exception, with more of the stream left unread, has ended its span
    once and emitted one choice event per choice; it is disarmed and the
    rest of the stream is untouched. *)
Theorem scoped_exit_finalizes_once
    (n : Z) (span : Span) (lg : EventLogger) (cs : list Chunk) (rest : list Pull) :
  Forall (well_formed (Z.to_nat n)) cs ->
  let w0 := StreamWrapper.__init__ (Stream (map PChunk cs ++ rest)) n span lg in
  let w := run w0 (OpEnter :: repeat OpNext (length cs) ++ [OpExit None]) in
  end_count (StreamWrapper.span w) = end_count span + 1
  /\ choice_event_count (StreamWrapper.event_logger w)
     = choice_event_count lg + Z.to_nat n
  /\ StreamWrapper._span_started w = false
  /\ StreamWrapper.stream w = Stream rest.
Proof.
  intros Hwf w0 w.
  assert (Hwf0 : Forall (well_formed (length (StreamWrapper.choices w0))) cs)
    by (unfold w0; now rewrite init_length).
  assert (Hw : w = fst (StreamWrapper.cleanup
                          (StreamWrapper.set_stream (Stream rest) (feed w0 cs)) None)).
  { unfold w. change (run w0 (OpEnter :: ?l)) with (run w0 l).
    rewrite run_app, (run_pulls cs w0 rest eq_refl Hwf0). reflexivity. }
  set (w1 := StreamWrapper.set_stream (Stream rest) (feed w0 cs)) in Hw.
  destruct (feed_frame cs w0) as (Hsp & Hlg & Hst & Hlen).
  assert (Hst1 : StreamWrapper._span_started w1 = true)
    by (change (StreamWrapper._span_started (feed w0 cs) = true); now rewrite Hst).
  destruct (cleanup_started w1 None Hst1) as (Hc & He & _ & Hst' & _ & Hstream).
  cbn zeta in Hc, He, Hst', Hstream. rewrite <- Hw in Hc, He, Hst', Hstream.
  split; [| split; [| split]].
  - rewrite (end_count_app _ _ 1 (finalize_calls_one_end w1 None) _ Hc).
    change (StreamWrapper.span w1) with (StreamWrapper.span (feed w0 cs)).
    now rewrite Hsp.
  - rewrite He, choice_event_count_app, choice_events_count.
    change (StreamWrapper.event_logger w1)
      with (StreamWrapper.event_logger (feed w0 cs)).
    change (StreamWrapper.choices w1) with (StreamWrapper.choices (feed w0 cs)).
    rewrite Hlg, Hlen. unfold w0. now rewrite init_length.
  - exact Hst'.
  - exact Hstream.
Qed.

Lemma scoped_exit_finalizes_once_witness :
  let cs := [Sample.chunk (Some "r1") None [Sample.delta 0 (Some "A") None]] in
  let rest := [PChunk (Sample.chunk None None [Sample.delta 1 (Some "B") None])] in
  let span := start_span Sample.tracer_on "chat gpt-4o" in
  let w0 := StreamWrapper.__init__ (Stream (map PChunk cs ++ rest)) 2 span [] in
  let w := run w0 (OpEnter :: repeat OpNext (length cs) ++ [OpExit None]) in
  end_count (StreamWrapper.span w) = end_count span + 1
  /\ choice_event_count (StreamWrapper.event_logger w)
     = choice_event_count [] + Z.to_nat 2
  /\ StreamWrapper._span_started w = false
  /\ StreamWrapper.stream w = Stream rest.
Proof.
  intros cs rest span.
  apply (scoped_exit_finalizes_once 2 span [] cs rest).
  unfold well_formed, delta_ok. simpl. repeat constructor; simpl; lia.
Defined.

(** ** A streaming call from request to exhaustion *)

(** The loop over well-formed chunks on an armed wrapper ends by
    exhaustion with one effective [cleanup] of the state [feed] describes. *)
Lemma iterate_finalizes (w0 : StreamWrapper.t) (cs : list Chunk) (fuel : nat) :
  StreamWrapper.stream w0 = Stream (map PChunk cs) ->
  StreamWrapper._span_started w0 = true ->
  Forall (well_formed (length (StreamWrapper.choices w0))) cs ->
  length cs < fuel ->
  exists w',
    iterate fuel w0 [] = Some (w', cs, None)
    /\ StreamWrapper.choices w' = StreamWrapper.choices (feed w0 cs)
    /\ calls (StreamWrapper.span w')
       = calls (StreamWrapper.span w0) ++ finalize_calls (feed w0 cs) None
    /\ StreamWrapper.event_logger w'
       = StreamWrapper.event_logger w0
         ++ choice_events (StreamWrapper.span w0) (StreamWrapper.choices (feed w0 cs))
    /\ StreamWrapper._span_started w' = false.
Proof.
  intros Hs Hst0 Hwf Hfuel.
  eexists. split; [now apply iterate_to_exhaustion |].
  set (w1 := StreamWrapper.set_stream (Stream []) (feed w0 cs)).
  destruct (feed_frame cs w0) as (Hsp & Hlg & Hst & _).
  assert (Hst1 : StreamWrapper._span_started w1 = true)
    by (change (StreamWrapper._span_started (feed w0 cs) = true); congruence).
  destruct (cleanup_started w1 None Hst1) as (Hc & He & _ & Hst' & Hch & _).
  cbn zeta in Hc, He, Hst', Hch. rewrite Hch, Hc, He, Hst'.
  change (StreamWrapper.choices w1) with (StreamWrapper.choices (feed w0 cs)).
  change (StreamWrapper.span w1) with (StreamWrapper.span (feed w0 cs)).
  change (StreamWrapper.event_logger w1) with (StreamWrapper.event_logger (feed w0 cs)).
  change (finalize_calls w1 None) with (finalize_calls (feed w0 cs) None).
  rewrite Hsp, Hlg. repeat split.
Qed.

(** [X17] What finalization reports after a stream was read to its end.
    On a recording span, a new wrapper iterated to exhaustion over
    well-formed chunks adds to the span, in this order: the response
    model and the response id, each the first non-null one the chunks
    carried (nothing if there is none); the input and output token
    counts of the last chunk with usage data (0 if there is none); the
    list of finish reasons, one per choice; and [end]. *)
Theorem finalization_reports_accumulated_state
    (n : Z) (span : Span) (lg : EventLogger) (cs : list Chunk) (fuel : nat) :
  is_recording span = true ->
  Forall (well_formed (Z.to_nat n)) cs ->
  length cs < fuel ->
  exists w' frs,
    iterate fuel (StreamWrapper.__init__ (Stream (map PChunk cs)) n span lg) []
    = Some (w', cs, None)
    /\ calls (StreamWrapper.span w')
       = calls span
         ++ attr_call GEN_AI_RESPONSE_MODEL
              (of_opt_str (first_some (map chunk_model cs)))
         ++ attr_call GEN_AI_RESPONSE_ID
              (of_opt_str (first_some (map chunk_id cs)))
         ++ [SetAttribute GEN_AI_USAGE_INPUT_TOKENS
               (PyInt (last_some 0%Z
                         (map (fun c => u_prompt_tokens <$> chunk_usage c) cs)));
             SetAttribute GEN_AI_USAGE_OUTPUT_TOKENS
               (PyInt (last_some 0%Z
                         (map (fun c => u_completion_tokens <$> chunk_usage c) cs)));
             SetAttribute GEN_AI_RESPONSE_FINISH_REASONS (PyStrList frs);
             End]
    /\ length frs = Z.to_nat n.
Proof.
  intros Hrec Hwf Hfuel.
  set (w0 := StreamWrapper.__init__ (Stream (map PChunk cs)) n span lg).
  assert (Hwf0 : Forall (well_formed (length (StreamWrapper.choices w0))) cs)
    by (unfold w0; now rewrite init_length).
  destruct (iterate_finalizes w0 cs fuel eq_refl eq_refl Hwf0 Hfuel)
    as (w' & Hit & Hch & Hcalls & _).
  exists w', (finish_reasons_of (StreamWrapper.choices w')).
  split; [exact Hit |]. split.
  - rewrite Hcalls. unfold finalize_calls, response_calls.
    destruct (feed_frame cs w0) as (-> & _ & _ & _).
    destruct (feed_tokens cs w0) as [-> ->].
    rewrite feed_response_model, feed_response_id, <- Hch.
    change (StreamWrapper.span w0) with span. rewrite Hrec.
    cbn [first_some StreamWrapper.response_model StreamWrapper.response_id
         StreamWrapper.prompt_tokens StreamWrapper.completion_tokens
         w0 StreamWrapper.__init__ StreamWrapper.setup negb
         StreamWrapper._span_started StreamWrapper.set_span_started].
    unfold attr_call at 3 4. cbn [is_not_None].
    rewrite <- !app_assoc. reflexivity.
  - unfold finish_reasons_of. rewrite length_map, Hch.
    destruct (feed_frame cs w0) as (_ & _ & _ & ->).
    unfold w0. apply init_length.
Qed.

Lemma finalization_reports_accumulated_state_witness :
  let usage p c := Some {| u_prompt_tokens := p; u_completion_tokens := c |} in
  let cs := [Sample.chunk None None [Sample.delta 0 (Some "A") None];
             Sample.chunk (Some "r1") (usage 10 1)%Z [Sample.delta 0 (Some "B") None];
             Sample.chunk (Some "r2") (usage 10 2)%Z []] in
  let span := start_span Sample.tracer_on "chat gpt-4o" in
  exists w' frs,
    iterate 4 (StreamWrapper.__init__ (Stream (map PChunk cs)) 1 span []) []
    = Some (w', cs, None)
    /\ calls (StreamWrapper.span w')
       = calls span
         ++ [SetAttribute GEN_AI_RESPONSE_MODEL (PyStr "gpt-4o-2024")]
         ++ [SetAttribute GEN_AI_RESPONSE_ID (PyStr "r1")]
         ++ [SetAttribute GEN_AI_USAGE_INPUT_TOKENS (PyInt 10);
             SetAttribute GEN_AI_USAGE_OUTPUT_TOKENS (PyInt 2);
             SetAttribute GEN_AI_RESPONSE_FINISH_REASONS (PyStrList frs);
             End]
    /\ length frs = Z.to_nat 1.
Proof.
  intros usage cs span.
  apply (finalization_reports_accumulated_state 1 span [] cs 4).
  - reflexivity.
  - unfold well_formed, delta_ok. simpl. repeat constructor; simpl; lia.
  - simpl. lia.
Defined.

(** [X18] A streaming call, from the request to the end of the stream.
    On a recording span, when the wrapped call returns a stream of
    well-formed chunks, the caller gets a wrapper; iterating it yields
    the chunks and ends by exhaustion, and by then the span, which
    started with the request attributes, has been ended exactly once,
    the logger holds the message events followed by one choice event per
    choice, and the wrapper is disarmed. *)
Theorem streaming_call_ends_span_once
    (tracer : Tracer) (lg : EventLogger) (wrapped : Kwargs -> CallResult)
    (kwargs : Kwargs) (n : Z) (cs : list Chunk) (fuel : nat) :
  sampled tracer = true ->
  _is_streaming kwargs = true ->
  as_count (py_or (kw_n kwargs) (PyInt 1)) = inr n ->
  wrapped kwargs = Returns (Stream (map PChunk cs)) ->
  Forall (well_formed (Z.to_nat n)) cs ->
  length cs < fuel ->
  let o := traced_method tracer lg wrapped kwargs in
  exists w w' rest,
    out_result o = ReturnWrapper w
    /\ iterate fuel w [] = Some (w', cs, None)
    /\ calls (StreamWrapper.span w') = request_calls kwargs ++ rest
    /\ end_count (StreamWrapper.span w') = 1
    /\ StreamWrapper.event_logger w'
       = lg ++ map _message_to_event (kw_messages kwargs)
         ++ choice_events (out_span o) (StreamWrapper.choices w')
    /\ length (StreamWrapper.choices w') = Z.to_nat n
    /\ StreamWrapper._span_started w' = false.
Proof.
  intros Hs Hst Hn Hw Hwf Hfuel.
  destruct (traced_method_recording tracer lg wrapped kwargs Hs)
    as (sp & Hc & _ & _ & _ & ->).
  cbv zeta. rewrite Hw, Hst, Hn. fold (message_events kwargs).
  cbn [out_result out_span].
  set (w0 := StreamWrapper.__init__ (Stream (map PChunk cs)) n sp
               (lg ++ message_events kwargs)).
  assert (Hwf0 : Forall (well_formed (length (StreamWrapper.choices w0))) cs)
    by (unfold w0; now rewrite init_length).
  destruct (iterate_finalizes w0 cs fuel eq_refl eq_refl Hwf0 Hfuel)
    as (w' & Hit & Hch & Hcalls & Hev & Hst').
  change (StreamWrapper.span w0) with sp in Hcalls, Hev.
  change (StreamWrapper.event_logger w0) with (lg ++ message_events kwargs) in Hev.
  exists w0, w', (finalize_calls (feed w0 cs) None).
  split; [reflexivity |]. split; [exact Hit |]. split; [now rewrite Hcalls, Hc |].
  split; [| split; [| split]].
  - unfold end_count. rewrite Hcalls, Hc, List.filter_app, request_calls_no_end.
    cbn [app]. apply finalize_calls_one_end.
  - rewrite Hev, Hch. now rewrite <- app_assoc.
  - rewrite Hch. destruct (feed_frame cs w0) as (_ & _ & _ & ->).
    unfold w0. apply init_length.
  - exact Hst'.
Qed.

Lemma streaming_call_ends_span_once_witness :
  let kwargs := Sample.kwargs (PyBool true) PyNone (PyInt 2) in
  let cs := [Sample.chunk (Some "r1") None [Sample.delta 0 (Some "A") None];
             Sample.chunk None None [Sample.delta 1 (Some "B") None];
             Sample.chunk None None [Sample.delta 0 (Some "!") (Some "stop");
                                     Sample.delta 1 None (Some "stop")]] in
  let o := traced_method Sample.tracer_on []
             (fun _ => Returns (Stream (map PChunk cs))) kwargs in
  exists w w' rest,
    out_result o = ReturnWrapper w
    /\ iterate 4 w [] = Some (w', cs, None)
    /\ calls (StreamWrapper.span w') = request_calls kwargs ++ rest
    /\ end_count (StreamWrapper.span w') = 1
    /\ StreamWrapper.event_logger w'
       = [] ++ map _message_to_event (kw_messages kwargs)
         ++ choice_events (out_span o) (StreamWrapper.choices w')
    /\ length (StreamWrapper.choices w') = Z.to_nat 2
    /\ StreamWrapper._span_started w' = false.
Proof.
  intros kwargs cs.
  apply (streaming_call_ends_span_once Sample.tracer_on []
           (fun _ => Returns (Stream (map PChunk cs))) kwargs 2 cs 4).
  - reflexivity.
  - reflexivity.
  - reflexivity.
  - reflexivity.
  - unfold well_formed, delta_ok. simpl. repeat constructor; simpl; lia.
  - simpl. lia.
Defined.

(** [X19] A scoped exit with an exception in flight, on an armed
    wrapper, finalizes with that exception: one choice event per buffer
    is emitted, the span's log ends with the error type, the error
    status and one [end], and the exception leaves [__exit__] itself
    (it is raised there, not merely left unsuppressed). *)
Theorem scoped_exit_records_exception (w : StreamWrapper.t) (e : PyError) :
  StreamWrapper._span_started w = true ->
  exists w' pre,
    StreamWrapper.__exit__ w (Some e) = (w', Some e)
    /\ calls (StreamWrapper.span w')
       = calls (StreamWrapper.span w) ++ pre ++ error_calls e
    /\ end_count (StreamWrapper.span w') = end_count (StreamWrapper.span w) + 1
    /\ StreamWrapper.event_logger w'
       = StreamWrapper.event_logger w
         ++ choice_events (StreamWrapper.span w) (StreamWrapper.choices w).
Proof.
  intros Hst. unfold StreamWrapper.__exit__.
  destruct (cleanup_started w (Some e) Hst) as (Hc & He & Hr & _).
  cbn zeta in Hc, He.
  destruct (StreamWrapper.cleanup w (Some e)) as [w' r].
  cbn [fst snd] in Hc, He, Hr. subst r.
  exists w'. eexists. split; [reflexivity |]. split; [| split].
  - rewrite Hc. unfold finalize_calls.
    rewrite (app_assoc _ [SetAttribute GEN_AI_RESPONSE_FINISH_REASONS _]).
    reflexivity.
  - apply (end_count_app _ _ 1 (finalize_calls_one_end w (Some e)) _ Hc).
  - exact He.
Qed.

Lemma scoped_exit_records_exception_witness :
  let w := Sample.wrapper [] 1 in
  exists w' pre,
    StreamWrapper.__exit__ w (Some Sample.boom) = (w', Some Sample.boom)
    /\ calls (StreamWrapper.span w')
       = calls (StreamWrapper.span w) ++ pre ++ error_calls Sample.boom
    /\ end_count (StreamWrapper.span w') = end_count (StreamWrapper.span w) + 1
    /\ StreamWrapper.event_logger w'
       = StreamWrapper.event_logger w
         ++ choice_events (StreamWrapper.span w) (StreamWrapper.choices w).
Proof.
  intros w. apply (scoped_exit_records_exception w Sample.boom). reflexivity.
Defined.
